(** * adsbcot: the gateway's command module ([adsbcot/commands.py])

    A shallow embedding of [main] (the orchestrator coroutine) and [cli]
    (the entry point) of the ADS-B to Cursor-on-Target gateway, and the
    properties of its start-up, dispatch and shutdown behaviour.

    The module is glue between libraries: [urllib], [pytak], [asyncio] and
    the worker classes of [adsbcot].  Their calls are modelled as events
    appended to a trace, and whatever they answer (does the connection
    succeed, which tasks are done when the wait returns, the host name) is
    read from an environment record.  The parts [main] computes itself (the
    substring tests on the scheme, the split at "+", the order of the calls,
    the task set) are modelled as the code has them. *)

From Stdlib Require Import Ascii String.
From stdpp Require Import gmap strings list.

(** ** Python [str] operations used by [main] *)

Module PyStr.

(** [s.startswith(p)]. *)
Fixpoint starts_with (p s : string) : bool :=
  match p, s with
  | EmptyString, _ => true
  | String _ _, EmptyString => false
  | String a p', String b s' => Ascii.eqb a b && starts_with p' s'
  end.

(** [needle in s] on two [str]: substring containment. *)
Fixpoint str_in (needle s : string) : bool :=
  match s with
  | EmptyString => starts_with needle EmptyString
  | String _ s' => starts_with needle s || str_in needle s'
  end.

(** [s.split(sep)] for a separator of one character: the pieces between the
    occurrences of [sep], in order; [n] occurrences give [n + 1] pieces. *)
Fixpoint split (sep : ascii) (s : string) : list string :=
  match s with
  | EmptyString => [EmptyString]
  | String c s' =>
      if Ascii.eqb c sep then EmptyString :: split sep s'
      else match split sep s' with
           | [] => [String c EmptyString]
           | piece :: pieces => String c piece :: pieces
           end
  end.

(** Number of occurrences of a character. *)
Fixpoint occurrences (c : ascii) (s : string) : nat :=
  match s with
  | EmptyString => 0%nat
  | String d s' => ((if Ascii.eqb d c then 1 else 0) + occurrences c s')%nat
  end.

(** Truth value of a [str]: the empty string is false. *)
Definition nonempty (s : string) : bool :=
  match s with EmptyString => false | String _ _ => true end.

End PyStr.

(** ** Data model *)

Definition TaskId := nat.
Definition Handle := nat.

(** The part of [urllib.parse.ParseResult] the module reads. *)
Record ParseResult := mkParseResult {
  scheme : string;
  netloc : string;
  path : string
}.

(** A parsed [.ini] file ([configparser.ConfigParser]): sections of options. *)
Abbreviation IniData := (gmap string (gmap string string)).

(** The values a configuration mapping holds: strings (from the command
    line, the process environment and the config section) and the filter
    set stored under ["FILTERS"]. *)
Inductive Value :=
| VStr (s : string)
| VFilters (f : IniData).

(** [collections.ChainMap]: the mappings in search order.  The nested
    [ChainMap(combined_config, {...})] of [cli] is kept flat; a lookup
    gives the same answer. *)
Abbreviation ChainMap A := (list (gmap string A)).

(** [ChainMap.get(key)]: the first mapping that has the key answers. *)
Fixpoint chain_get {A} (maps : ChainMap A) (key : string) : option A :=
  match maps with
  | [] => None
  | m :: ms =>
      match m !! key with
      | Some v => Some v
      | None => chain_get ms key
      end
  end.

(** Truth value of what [.get] returns: [None] and [""] are false; a
    [ConfigParser] object has a positive length and is true. *)
Definition truthy (v : option Value) : bool :=
  match v with
  | None => false
  | Some (VStr s) => PyStr.nonempty s
  | Some (VFilters _) => true
  end.

Definition truthy_str (v : option string) : bool :=
  match v with
  | None => false
  | Some s => PyStr.nonempty s
  end.

(** The three [asyncio.Queue] objects [main] creates, by variable name. *)
Inductive QueueId := tx_queue | rx_queue | net_queue.

(** The worker objects [main] constructs, with the arguments it passes. *)
Inductive Worker :=
| EventTransmitter (queue : QueueId) (writer : Handle)
| EventReceiver (queue : QueueId) (reader : Handle)
| ADSBWorker (event_queue : QueueId) (url : ParseResult)
    (poll_interval cot_stale filters : option Value)
| ADSBNetReceiver (queue : QueueId) (url : ParseResult) (data_type : string)
| ADSBNetWorker (event_queue net_queue : QueueId) (data_type : string)
    (cot_stale filters : option Value).

(** What travels on the outbound queue.  [main] only makes the hello event;
    [aircraft_event] stands for what a Source Worker enqueues once it runs
    (the workers' code is outside this module). *)
Inductive CoTEvent :=
| hello_event (uid : string)
| aircraft_event (body : string).

(** The [return_when] argument of [asyncio.wait]. *)
Inductive ReturnWhen := FIRST_COMPLETED | FIRST_EXCEPTION | ALL_COMPLETED.

(** Why a task counts as done when [asyncio.wait] returns it. *)
Inductive Completion := Finished | Failed | Cancelled.

(** The observable calls of the module, in the order they are made. *)
Inductive Event :=
| EvNewQueue (q : QueueId)                    (* asyncio.Queue(...) *)
| EvConnect (url : ParseResult)               (* await pytak.protocol_factory(url) *)
| EvConstruct (w : Worker)                    (* a worker class is instantiated *)
| EvPrint (line : string)                     (* print(line) *)
| EvPut (q : QueueId) (e : CoTEvent)          (* await q.put(e) *)
| EvEnsureFuture (t : TaskId) (w : Worker)    (* asyncio.ensure_future(w.run()) *)
| EvWait (ts : gset TaskId) (rw : ReturnWhen) (* await asyncio.wait(ts, return_when=rw) *)
| EvCancel (t : TaskId)                       (* t.cancel() *)
| EvLog (msg arg : string)                    (* logging.info(msg, arg) *)
| EvReadFile (name : string)                  (* ConfigParser.read(name) *)
| EvLoopClose.                                (* loop.close() *)

Inductive Exn :=
| TransportError                 (* pytak.protocol_factory raised *)
| BareException                  (* [raise Exception] *)
| ValueError                     (* unpacking a list that has not two items *)
| UnboundLocalError (name : string)
| TypeError
| AttributeError                 (* [urlparse] given an object that is no str *)
| KeyError (key : string)
| ParsingError.                  (* configparser rejected a file *)

(** ** The effect monad: a world threaded through, and three ways to end *)

Inductive Outcome (A : Type) :=
| Ret (a : A)
| Raise (e : Exn)
| SysExit (code : Z).
Arguments Ret {A} a.
Arguments Raise {A} e.
Arguments SysExit {A} code.

Record World := mkWorld {
  trace : list Event;          (* the calls made so far, oldest first *)
  outbound : list CoTEvent;    (* content of tx_queue, head first *)
  next_task : TaskId           (* tasks created so far *)
}.

Definition world0 : World := mkWorld [] [] 0%nat.

Definition M (A : Type) := World -> Outcome A * World.

Definition ret {A} (a : A) : M A := fun w => (Ret a, w).

Definition bind {A B} (m : M A) (k : A -> M B) : M B :=
  fun w =>
    match m w with
    | (Ret a, w') => k a w'
    | (Raise e, w') => (Raise e, w')
    | (SysExit c, w') => (SysExit c, w')
    end.

Definition raise {A} (e : Exn) : M A := fun w => (Raise e, w).

(** [sys.exit(code)]. *)
Definition sys_exit {A} (code : Z) : M A := fun w => (SysExit code, w).

(** [try: body finally: cleanup]. *)
Definition try_finally {A} (body : M A) (cleanup : M unit) : M A :=
  fun w =>
    match body w with
    | (r, w') =>
        match cleanup w' with
        | (Ret _, w'') => (r, w'')
        | (Raise e, w'') => (Raise e, w'')
        | (SysExit c, w'') => (SysExit c, w'')
        end
    end.

Notation "x <- c1 ;; c2" := (bind c1 (fun x => c2))
  (at level 100, c1 at next level, right associativity).
Notation "c1 ;; c2" := (bind c1 (fun _ => c2))
  (at level 100, right associativity).

Definition emit (e : Event) : M unit :=
  fun w => (Ret tt, mkWorld (trace w ++ [e]) (outbound w) (next_task w)).

Definition print (line : string) : M unit := emit (EvPrint line).

(** [await tx_queue.put(e)]: the queue is unbounded, the item goes to the
    tail at once. *)
Definition put_outbound (e : CoTEvent) : M unit :=
  fun w => (Ret tt,
            mkWorld (trace w ++ [EvPut tx_queue e]) (outbound w ++ [e]) (next_task w)).

(** [asyncio.ensure_future(w.run())]: a new task object wraps the
    coroutine and is scheduled. *)
Definition ensure_future (wk : Worker) : M TaskId :=
  fun w => (Ret (next_task w),
            mkWorld (trace w ++ [EvEnsureFuture (next_task w) wk])
                    (outbound w) (S (next_task w))).

Fixpoint for_each {A} (xs : list A) (body : A -> M unit) : M unit :=
  match xs with
  | [] => ret tt
  | x :: xs' => body x ;; for_each xs' body
  end.

(** The status the interpreter exits with. *)
Definition exit_status {A} (r : Outcome A) : Z :=
  match r with
  | Ret _ => 0%Z
  | Raise _ => 1%Z
  | SysExit c => c
  end.

(** ** What the surroundings answer *)

Record Env := mkEnv {
  (* the module-level flag: did [import pyModeS] succeed *)
  with_pymodes : bool;
  (* [urllib.parse.urlparse] on a [str] *)
  urlparse : string -> ParseResult;
  (* [pytak.protocol_factory]: the (reader, writer) pair, or [None] when
     it raises *)
  protocol_factory : ParseResult -> option (Handle * Handle);
  (* [platform.node()] *)
  node : string;
  (* the [done] set [asyncio.wait] returns for a task set, in the order the
     [for] loop visits it, each task with the way it ended *)
  wait_done : gset TaskId -> list (TaskId * Completion);
  (* [str(task)] of a done task *)
  task_repr : TaskId -> Completion -> string;
  (* the interpreter: does [asyncio.Queue] take the [loop] keyword (it does
     up to 3.9; from 3.10 on the call raises [TypeError]) *)
  queue_accepts_loop : bool;
  (* [pytak.protocol_factory] on the bytes record that [urlparse(None)]
     answers: the pair, or [None] when it raises *)
  protocol_factory_bytes : option (Handle * Handle)
}.

(** What [urlparse] answers: a record of [str] components for a [str], and
    for [None] a record whose components are all the empty [bytes]. *)
Inductive Parsed :=
| ParsedStr (r : ParseResult)
| ParsedBytes.

(** The bytes record, as it shows in a recorded call: every component is
    empty. *)
Definition bytes_record : ParseResult := mkParseResult "" "" "".

Definition record_of (p : Parsed) : ParseResult :=
  match p with
  | ParsedStr r => r
  | ParsedBytes => bytes_record
  end.

(** [urllib.parse.urlparse(opts.get(key))].  A key that is absent gives
    [urlparse(None)], the bytes record, without an error; an object that is
    neither [str] nor [None] has no [decode] and raises
    [AttributeError]. *)
Definition parse_url (env : Env) (v : option Value) : M Parsed :=
  match v with
  | Some (VStr s) => ret (ParsedStr (urlparse env s))
  | None => ret ParsedBytes
  | Some (VFilters _) => raise AttributeError
  end.

(** [await pytak.protocol_factory(cot_url)], with whichever record [cot_url]
    is. *)
Definition connect (env : Env) (url : Parsed) : M (Handle * Handle) :=
  emit (EvConnect (record_of url)) ;;
  match match url with
        | ParsedStr r => protocol_factory env r
        | ParsedBytes => protocol_factory_bytes env
        end with
  | Some rw => ret rw
  | None => raise TransportError
  end.

(** [asyncio.Queue(loop=loop)]. *)
Definition new_queue_with_loop (env : Env) (q : QueueId) : M unit :=
  if queue_accepts_loop env then emit (EvNewQueue q) else raise TypeError.

(** [await asyncio.wait(tasks, return_when=rw)]: [main] is suspended until
    the library hands back the done set. *)
Definition wait (env : Env) (tasks : gset TaskId) (rw : ReturnWhen)
  : M (list (TaskId * Completion)) :=
  emit (EvWait tasks rw) ;;
  ret (wait_done env tasks).

(** [_, data_type = scheme.split("+")]. *)
Definition unpack_second (pieces : list string) : M string :=
  match pieces with
  | [_; data_type] => ret data_type
  | _ => raise ValueError
  end.

(** ** [main]: the orchestrator (lines 41 to 102) *)

Definition main (env : Env) (opts : ChainMap Value) : M unit :=
  emit (EvNewQueue tx_queue) ;;
  emit (EvNewQueue rx_queue) ;;
  cot_url <- parse_url env (chain_get opts "COT_URL") ;;
  (* Create our CoT Event Queue Worker *)
  rw <- connect env cot_url ;;
  let reader := fst rw in
  let writer := snd rw in
  let write_worker := EventTransmitter tx_queue writer in
  emit (EvConstruct write_worker) ;;
  let read_worker := EventReceiver rx_queue reader in
  emit (EvConstruct read_worker) ;;
  let tasks : gset TaskId := ∅ in
  dump1090_url <- parse_url env (chain_get opts "DUMP1090_URL") ;;
  (* ADSB Workers (receivers); [message_worker] stays unbound when neither
     test holds *)
  sel <-
    match dump1090_url with
    | ParsedBytes =>
        (* ["http" in b""]: a [str] cannot be sought in [bytes] *)
        raise TypeError
    | ParsedStr dump1090_url =>
     (if PyStr.str_in "http" (scheme dump1090_url) then
       let message_worker :=
         ADSBWorker tx_queue dump1090_url
           (chain_get opts "POLL_INTERVAL") (chain_get opts "COT_STALE")
           (chain_get opts "FILTERS") in
       emit (EvConstruct message_worker) ;;
       ret (tasks, Some message_worker)
     else if PyStr.str_in "tcp" (scheme dump1090_url) then
       (if negb (with_pymodes env) then
          print "ERROR from adsbcot" ;;
          print "Please reinstall adsbcot with pyModeS support: " ;;
          print "$ pip3 install -U adsbcot[with_pymodes]" ;;
          print "Exiting..." ;;
          raise BareException
        else ret tt) ;;
       new_queue_with_loop env net_queue ;;
       data_type <-
         (if PyStr.str_in "+" (scheme dump1090_url) then
            unpack_second (PyStr.split "+" (scheme dump1090_url))
          else ret "raw") ;;
       let adsbnetreceiver := ADSBNetReceiver net_queue dump1090_url data_type in
       emit (EvConstruct adsbnetreceiver) ;;
       t <- ensure_future adsbnetreceiver ;;
       let tasks := tasks ∪ {[t]} in
       let message_worker :=
         ADSBNetWorker tx_queue net_queue data_type
           (chain_get opts "COT_STALE") (chain_get opts "FILTERS") in
       emit (EvConstruct message_worker) ;;
       ret (tasks, Some message_worker)
     else ret (tasks, None))
    end ;;
  let tasks := fst sel in
  put_outbound (hello_event ("adsbxcot@" +:+ node env)) ;;
  message_worker <-
    match snd sel with
    | Some w => ret w
    | None => raise (UnboundLocalError "message_worker")
    end ;;
  t <- ensure_future message_worker ;;
  let tasks := tasks ∪ {[t]} in
  t <- ensure_future read_worker ;;
  let tasks := tasks ∪ {[t]} in
  t <- ensure_future write_worker ;;
  let tasks := tasks ∪ {[t]} in
  done <- wait env tasks FIRST_COMPLETED ;;
  for_each done (fun task =>
    print ("Task completed: " +:+ task_repr env (fst task) (snd task))).

(** A run of [main] from the initial world. *)
Definition run_main (env : Env) (opts : ChainMap Value) : Outcome unit * World :=
  main env opts world0.

(** ** [cli]: the entry point (lines 105 to 155) *)

(** What [parser.parse_args()] does with the command line: it ends the
    process itself (help, a usage error), or it gives the value of
    [-c/--CONFIG_FILE] when the option is there. *)
Inductive Argv :=
| ArgvExit (code : Z)
| ArgvParsed (config_file : option string).

Record CliEnv := mkCliEnv {
  main_env : Env;
  argv : Argv;
  (* [os.environ] *)
  environ : gmap string string;
  (* [ConfigParser().read(name)]: the sections read, each as its proxy
     answers lookups; a file that is not there reads as no section, and
     [None] is a file the parser rejects *)
  read_ini : string -> option IniData;
  (* [sys.version_info[:2] >= (3, 7)] *)
  version_ge_37 : bool
}.

Definition parse_args (cenv : CliEnv) : M string :=
  match argv cenv with
  | ArgvExit code => sys_exit code
  | ArgvParsed (Some file) => ret file
  | ArgvParsed None => ret "config.ini"
  end.

Definition config_read (cenv : CliEnv) (name : string) : M IniData :=
  emit (EvReadFile name) ;;
  match read_ini cenv name with
  | Some ini => ret ini
  | None => raise ParsingError
  end.

(** The string-valued mappings seen as mappings of values. *)
Definition as_values (maps : ChainMap string) : ChainMap Value :=
  map (fun m : gmap string string => VStr <$> m) maps.

Definition cli (cenv : CliEnv) : M unit :=
  config_file <- parse_args cenv ;;
  let cli_args : gmap string string := {[ "CONFIG_FILE" := config_file ]} in
  (* Read config file: *)
  emit (EvLog "Reading configuration from %s" config_file) ;;
  config <- config_read cenv config_file ;;
  section <-
    match (config : IniData) !! "adsbcot" with
    | Some sec => ret sec
    | None => raise (KeyError "adsbcot")
    end ;;
  (* Combined command-line args with config file: *)
  let combined_str : ChainMap string := [cli_args; environ cenv; section] in
  combined_config <-
    (if truthy_str (chain_get combined_str "FILTER_FILE") then
       let filter_file := default "" (chain_get combined_str "FILTER_FILE") in
       print filter_file ;;
       emit (EvLog "Reading filters from %s" filter_file) ;;
       filters <- config_read cenv filter_file ;;
       ret (as_values combined_str
              ++ [ ({[ "FILTERS" := VFilters filters ]} : gmap string Value) ])
     else ret (as_values combined_str)) ;;
  (if negb (truthy (chain_get combined_config "COT_URL")) then
     print "Please specify a CoT Destination URL, for example: '-U tcp:takserver.example.com:8087'" ;;
     print "See -h for help." ;;
     sys_exit 1
   else ret tt) ;;
  (if negb (truthy (chain_get combined_config "DUMP1090_URL")) then
     print "Please specify a Dump1090 Source URL, for example: '-D tcp+beast:piaware.example.com:30005'" ;;
     print "See -h for help." ;;
     sys_exit 1
   else ret tt) ;;
  if version_ge_37 cenv then
    (* asyncio.run(main(combined_config), debug=...) *)
    main (main_env cenv) combined_config
  else
    (* loop.run_until_complete(main(combined_config)), then loop.close() *)
    try_finally (main (main_env cenv) combined_config) (emit EvLoopClose).

Definition run_cli (cenv : CliEnv) : Outcome unit * World := cli cenv world0.

(** ** Reading a trace *)

(** The tasks created, oldest first, each with the worker it runs. *)
Fixpoint started (tr : list Event) : list (TaskId * Worker) :=
  match tr with
  | [] => []
  | EvEnsureFuture t w :: tr' => (t, w) :: started tr'
  | _ :: tr' => started tr'
  end.

(** The worker objects instantiated, oldest first. *)
Fixpoint constructed (tr : list Event) : list Worker :=
  match tr with
  | [] => []
  | EvConstruct w :: tr' => w :: constructed tr'
  | _ :: tr' => constructed tr'
  end.

(** The connections asked of the CoT transport. *)
Fixpoint connections (tr : list Event) : list ParseResult :=
  match tr with
  | [] => []
  | EvConnect u :: tr' => u :: connections tr'
  | _ :: tr' => connections tr'
  end.

(** The lines printed, oldest first. *)
Fixpoint printed (tr : list Event) : list string :=
  match tr with
  | [] => []
  | EvPrint l :: tr' => l :: printed tr'
  | _ :: tr' => printed tr'
  end.

(** The task cancellations asked for. *)
Fixpoint cancelled (tr : list Event) : list TaskId :=
  match tr with
  | [] => []
  | EvCancel t :: tr' => t :: cancelled tr'
  | _ :: tr' => cancelled tr'
  end.

(** The items put on the outbound queue. *)
Fixpoint puts (tr : list Event) : list CoTEvent :=
  match tr with
  | [] => []
  | EvPut tx_queue e :: tr' => e :: puts tr'
  | _ :: tr' => puts tr'
  end.

Definition is_net_receiver (w : Worker) : bool :=
  match w with ADSBNetReceiver _ _ _ => true | _ => false end.

(** The ingestion worker: the Source Worker of either variant. *)
Definition is_source_worker (w : Worker) : bool :=
  match w with
  | ADSBWorker _ _ _ _ _ | ADSBNetWorker _ _ _ _ _ => true
  | _ => false
  end.

Definition is_poll_worker (w : Worker) : bool :=
  match w with ADSBWorker _ _ _ _ _ => true | _ => false end.

Definition is_stream_worker (w : Worker) : bool :=
  match w with ADSBNetWorker _ _ _ _ _ => true | _ => false end.

(** The diagnostic [main] prints when the decoder is missing. *)
Definition pymodes_diagnostic : list string :=
  [ "ERROR from adsbcot";
    "Please reinstall adsbcot with pyModeS support: ";
    "$ pip3 install -U adsbcot[with_pymodes]";
    "Exiting..." ].

(** How [main] reads the scheme: the "http" test first, the "tcp" test
    only when it fails. *)
Inductive Family := HttpFamily | TcpFamily | OtherFamily.

Definition family (s : string) : Family :=
  if PyStr.str_in "http" s then HttpFamily
  else if PyStr.str_in "tcp" s then TcpFamily
  else OtherFamily.

(** ** Concrete inputs *)

Module Inputs.
Definition stream_url : string := "tcp+beast://piaware.example.com:30005".
Definition plain_stream_url : string := "tcp://piaware.example.com:30003".
Definition poll_url : string := "https://piaware.example.com:8080/data/aircraft.json".
Definition mixed_url : string := "tcp+http://piaware.example.com:30005".
Definition udp_url : string := "udp://piaware.example.com:30005".
Definition two_plus_url : string := "tcp+beast+x://piaware.example.com:30005".
Definition cot_url : string := "tcp://takserver.example.com:8087".
End Inputs.

(** ** Sample surroundings, used to run the model on concrete inputs *)

Module Sample.

(** A stand-in for [urlparse]: the scheme is what comes before the first
    colon, the rest is kept as the network location. *)
Fixpoint cut_colon (s : string) : string * string :=
  match s with
  | EmptyString => (EmptyString, EmptyString)
  | String c s' =>
      if Ascii.eqb c ":" then (EmptyString, s')
      else (String c (fst (cut_colon s')), snd (cut_colon s'))
  end.

Definition urlparse (s : string) : ParseResult :=
  mkParseResult (fst (cut_colon s)) (snd (cut_colon s)) "".

(** The transport pair of a reachable destination. *)
Definition reachable (_ : ParseResult) : option (Handle * Handle) := Some (7, 8)%nat.

Definition unreachable (_ : ParseResult) : option (Handle * Handle) := None.

(** The wait returns with the oldest task failed. *)
Definition first_failed (_ : gset TaskId) : list (TaskId * Completion) :=
  [(0%nat, Failed)].

Definition repr (t : TaskId) (c : Completion) : string :=
  match c with
  | Finished => "<Task finished>"
  | Failed => "<Task finished exception>"
  | Cancelled => "<Task cancelled>"
  end.

(** An interpreter before 3.10, with or without the decoder. *)
Definition env (pymodes : bool) : Env :=
  mkEnv pymodes urlparse reachable "pi" first_failed repr true None.

Definition env_offline : Env :=
  mkEnv true urlparse unreachable "pi" first_failed repr true None.

(** An interpreter from 3.10 on, the decoder installed. *)
Definition env_py310 : Env :=
  mkEnv true urlparse reachable "pi" first_failed repr false None.

Definition opts (source : string) : ChainMap Value :=
  [ {[ "COT_URL" := VStr Inputs.cot_url;
       "DUMP1090_URL" := VStr source;
       "COT_STALE" := VStr "120" ]} ].

End Sample.

(** ** The runs of [main], path by path *)

(** The hello event of this host. *)
Definition hello (env : Env) : CoTEvent :=
  hello_event ("adsbxcot@" +:+ node env).

(** The lines the final loop prints, one for each done task. *)
Definition report (env : Env) (done : list (TaskId * Completion)) : list Event :=
  map (fun task =>
         EvPrint ("Task completed: " +:+ task_repr env (fst task) (snd task)))
      done.

(** What every run does first, when the destination answers: the two
    queues, the connection, the two transport workers. *)
Definition prologue (env : Env) (cot : string) (rd wr : Handle) : list Event :=
  [ EvNewQueue tx_queue; EvNewQueue rx_queue;
    EvConnect (urlparse env cot);
    EvConstruct (EventTransmitter tx_queue wr);
    EvConstruct (EventReceiver rx_queue rd) ].

(** The same for whichever record was handed to the transport. *)
Definition prologue_at (u : ParseResult) (rd wr : Handle) : list Event :=
  [ EvNewQueue tx_queue; EvNewQueue rx_queue;
    EvConnect u;
    EvConstruct (EventTransmitter tx_queue wr);
    EvConstruct (EventReceiver rx_queue rd) ].

(** Lines 45 and 48 as a value: the record handed to the transport factory
    and what the factory answers; [None] when [urlparse] raises. *)
Definition destination (env : Env) (opts : ChainMap Value)
  : option (ParseResult * option (Handle * Handle)) :=
  match chain_get opts "COT_URL" with
  | Some (VStr cot) =>
      Some (urlparse env cot, protocol_factory env (urlparse env cot))
  | None => Some (bytes_record, protocol_factory_bytes env)
  | Some (VFilters _) => None
  end.

Definition poll_worker (env : Env) (opts : ChainMap Value) (src : string) : Worker :=
  ADSBWorker tx_queue (urlparse env src)
    (chain_get opts "POLL_INTERVAL") (chain_get opts "COT_STALE")
    (chain_get opts "FILTERS").

Definition net_receiver (env : Env) (src data_type : string) : Worker :=
  ADSBNetReceiver net_queue (urlparse env src) data_type.

Definition stream_worker (opts : ChainMap Value) (data_type : string) : Worker :=
  ADSBNetWorker tx_queue net_queue data_type
    (chain_get opts "COT_STALE") (chain_get opts "FILTERS").

(** The tag lines 76 to 79 compute, as a value: [None] is the unpacking
    that fails. *)
Definition sub_format (s : string) : option string :=
  if PyStr.str_in "+" s then
    match PyStr.split "+" s with
    | [_; data_type] => Some data_type
    | _ => None
    end
  else Some "raw".

(** The two ingestion strategies, and the one lines 58 to 91 settle on for
    a scheme.  [None] where they bind no worker or end the run: neither
    test holds, the decoder is missing, the queue of line 74 is refused by
    the interpreter, or the unpacking of the tag fails. *)
Inductive Strategy := Poll | Stream (data_type : string).

Definition strategy (env : Env) (s : string) : option Strategy :=
  match family s with
  | HttpFamily => Some Poll
  | TcpFamily =>
      if with_pymodes env then
        if queue_accepts_loop env then Stream <$> sub_format s else None
      else None
  | OtherFamily => None
  end.

(** The calls of lines 58 to 91 for a strategy. *)
Definition selection (env : Env) (opts : ChainMap Value) (src : string)
    (st : Strategy) : list Event :=
  match st with
  | Poll => [ EvConstruct (poll_worker env opts src) ]
  | Stream dt =>
      [ EvNewQueue net_queue;
        EvConstruct (net_receiver env src dt);
        EvEnsureFuture 0 (net_receiver env src dt);
        EvConstruct (stream_worker opts dt) ]
  end.

Definition source_worker (env : Env) (opts : ChainMap Value) (src : string)
    (st : Strategy) : Worker :=
  match st with
  | Poll => poll_worker env opts src
  | Stream dt => stream_worker opts dt
  end.

(** Tasks created during the selection. *)
Definition early_tasks (st : Strategy) : nat :=
  match st with Poll => 0 | Stream _ => 1 end.

Definition early_set (st : Strategy) : gset TaskId :=
  match st with Poll => ∅ | Stream _ => ∅ ∪ {[ 0%nat ]} end.

(** The task set handed to [asyncio.wait]. *)
Definition task_set (st : Strategy) : gset TaskId :=
  early_set st ∪ {[ early_tasks st ]} ∪ {[ S (early_tasks st) ]}
               ∪ {[ S (S (early_tasks st)) ]}.

(** Lines 93 to 99: the hello event, the three tasks, the wait. *)
Definition launch (env : Env) (opts : ChainMap Value) (src : string)
    (rd wr : Handle) (st : Strategy) : list Event :=
  [ EvPut tx_queue (hello env);
    EvEnsureFuture (early_tasks st) (source_worker env opts src st);
    EvEnsureFuture (S (early_tasks st)) (EventReceiver rx_queue rd);
    EvEnsureFuture (S (S (early_tasks st))) (EventTransmitter tx_queue wr);
    EvWait (task_set st) FIRST_COMPLETED ].

(** Unfolds the monad and the primitive calls, leaving the loop alone. *)
Ltac run_step :=
  cbv beta iota delta
    [bind ret raise emit put_outbound ensure_future wait parse_url
     connect record_of unpack_second world0 trace outbound next_task negb];
  cbn [fst snd app].

Ltac run_prints :=
  cbv beta iota delta
    [bind ret raise emit print put_outbound ensure_future wait parse_url
     connect record_of unpack_second world0 trace outbound next_task negb];
  cbn [fst snd app].

(** The worker objects of the ingestion side that a run instantiates. *)
Definition ingestion_objects (tr : list Event) : list Worker :=
  List.filter (fun w => is_net_receiver w || is_source_worker w) (constructed tr).

(** The waits of a run, each with its task set and its return condition. *)
Fixpoint waits (tr : list Event) : list (gset TaskId * ReturnWhen) :=
  match tr with
  | [] => []
  | EvWait ts rw :: tr' => (ts, rw) :: waits tr'
  | _ :: tr' => waits tr'
  end.

(** The queues created. *)
Fixpoint new_queues (tr : list Event) : list QueueId :=
  match tr with
  | [] => []
  | EvNewQueue q :: tr' => q :: new_queues tr'
  | _ :: tr' => new_queues tr'
  end.

(** Events that mark a place in a run. *)
Definition is_wait (ev : Event) : Prop :=
  match ev with EvWait _ _ => True | _ => False end.

Definition is_source_start (ev : Event) : Prop :=
  match ev with
  | EvEnsureFuture _ w => is_source_worker w = true
  | _ => False
  end.

Definition is_receiver_start (ev : Event) : Prop :=
  match ev with
  | EvEnsureFuture _ w => is_net_receiver w = true
  | _ => False
  end.

(** The two diagnostics of [cli]. *)
Definition cot_url_diagnostic : list string :=
  [ "Please specify a CoT Destination URL, for example: '-U tcp:takserver.example.com:8087'";
    "See -h for help." ].

Definition source_url_diagnostic : list string :=
  [ "Please specify a Dump1090 Source URL, for example: '-D tcp+beast:piaware.example.com:30005'";
    "See -h for help." ].

(** The configuration the first half of [cli] arrives at (lines 108 to
    132), as a value: [None] when the command line ends the process or a
    loader raises, so that there is no resolved configuration. *)
Definition resolved_config (cenv : CliEnv) : option (ChainMap Value) :=
  match argv cenv with
  | ArgvExit _ => None
  | ArgvParsed given =>
      let config_file := default "config.ini" given in
      match read_ini cenv config_file with
      | None => None
      | Some config =>
          match (config : IniData) !! "adsbcot" with
          | None => None
          | Some section =>
              let combined_str : ChainMap string :=
                [ {[ "CONFIG_FILE" := config_file ]}; environ cenv; section ] in
              if truthy_str (chain_get combined_str "FILTER_FILE") then
                match read_ini cenv
                        (default "" (chain_get combined_str "FILTER_FILE")) with
                | None => None
                | Some filters =>
                    Some (as_values combined_str
                          ++ [ ({[ "FILTERS" := VFilters filters ]}
                                : gmap string Value) ])
                end
              else Some (as_values combined_str)
          end
      end
  end.

(** The calls [cli] makes on its own, before it hands over to [main]. *)
Definition is_setup_event (ev : Event) : Prop :=
  match ev with
  | EvLog _ _ | EvReadFile _ | EvPrint _ => True
  | _ => False
  end.

(** Sample surroundings of [cli]: a config file with the given options
    in its [adsbcot] section, an empty process environment. *)
Definition sample_cli (section : gmap string string) : CliEnv :=
  mkCliEnv (Sample.env true) (ArgvParsed None) ∅
           (fun _ => Some ({[ "adsbcot" := section ]} : IniData)) true.

(** Every run of [main] either stops with an exception before any task
    exists, or goes through the whole pipeline. *)
Inductive RunCase (env : Env) (opts : ChainMap Value) : Prop :=
| Aborted (e : Exn) (w : World) :
    run_main env opts = (Raise e, w) ->
    started (trace w) = [] ->
    waits (trace w) = [] ->
    RunCase env opts
| Piped (u : ParseResult) (src : string) (rd wr : Handle) (st : Strategy) :
    destination env opts = Some (u, Some (rd, wr)) ->
    chain_get opts "DUMP1090_URL" = Some (VStr src) ->
    strategy env (scheme (urlparse env src)) = Some st ->
    RunCase env opts.

(** ** Further readers, for the properties beyond the claims *)

(** A computation that leaves the trace it is given in place and only
    appends to it; the rest of its behaviour does not look at the trace. *)
Definition Framed {A} (m : M A) : Prop :=
  forall (tr : list Event) (q : list CoTEvent) (n : TaskId),
    m (mkWorld tr q n)
    = (fst (m (mkWorld [] q n)),
       mkWorld (tr ++ trace (snd (m (mkWorld [] q n))))
               (outbound (snd (m (mkWorld [] q n))))
               (next_task (snd (m (mkWorld [] q n))))).

(** The queues a worker object is given. *)
Definition queues_of (w : Worker) : list QueueId :=
  match w with
  | EventTransmitter q _ => [q]
  | EventReceiver q _ => [q]
  | ADSBWorker q _ _ _ _ => [q]
  | ADSBNetReceiver q _ _ => [q]
  | ADSBNetWorker q nq _ _ _ => [q; nq]
  end.

(** The sub-format tag a worker object is given, when it takes one. *)
Definition tag_of (w : Worker) : option string :=
  match w with
  | ADSBNetReceiver _ _ dt => Some dt
  | ADSBNetWorker _ _ dt _ _ => Some dt
  | _ => None
  end.

(** The ways through [main], each with the run it gives. *)
Inductive RunPath (env : Env) (opts : ChainMap Value) : Prop :=
| PathBadDestination :
    destination env opts = None ->
    run_main env opts
    = (Raise AttributeError,
       mkWorld [EvNewQueue tx_queue; EvNewQueue rx_queue] [] 0%nat) ->
    RunPath env opts
| PathUnreachable (u : ParseResult) :
    destination env opts = Some (u, None) ->
    run_main env opts
    = (Raise TransportError,
       mkWorld [EvNewQueue tx_queue; EvNewQueue rx_queue; EvConnect u] [] 0%nat) ->
    RunPath env opts
| PathNoSource (u : ParseResult) (rd wr : Handle) (e : Exn) :
    destination env opts = Some (u, Some (rd, wr)) ->
    (forall src, chain_get opts "DUMP1090_URL" <> Some (VStr src)) ->
    run_main env opts = (Raise e, mkWorld (prologue_at u rd wr) [] 0%nat) ->
    RunPath env opts
| PathPipeline (u : ParseResult) (src : string) (rd wr : Handle) (st : Strategy) :
    destination env opts = Some (u, Some (rd, wr)) ->
    chain_get opts "DUMP1090_URL" = Some (VStr src) ->
    strategy env (scheme (urlparse env src)) = Some st ->
    run_main env opts
    = (Ret tt,
       mkWorld (prologue_at u rd wr ++ selection env opts src st
                ++ launch env opts src rd wr st
                ++ report env (wait_done env (task_set st)))
               [hello env] (early_tasks st + 3)) ->
    RunPath env opts
| PathNoDecoder (u : ParseResult) (src : string) (rd wr : Handle) :
    destination env opts = Some (u, Some (rd, wr)) ->
    chain_get opts "DUMP1090_URL" = Some (VStr src) ->
    family (scheme (urlparse env src)) = TcpFamily ->
    with_pymodes env = false ->
    run_main env opts
    = (Raise BareException,
       mkWorld (prologue_at u rd wr ++ map EvPrint pymodes_diagnostic) [] 0%nat) ->
    RunPath env opts
| PathQueueRejected (u : ParseResult) (src : string) (rd wr : Handle) :
    destination env opts = Some (u, Some (rd, wr)) ->
    chain_get opts "DUMP1090_URL" = Some (VStr src) ->
    family (scheme (urlparse env src)) = TcpFamily ->
    with_pymodes env = true ->
    queue_accepts_loop env = false ->
    run_main env opts = (Raise TypeError, mkWorld (prologue_at u rd wr) [] 0%nat) ->
    RunPath env opts
| PathBadTag (u : ParseResult) (src : string) (rd wr : Handle) :
    destination env opts = Some (u, Some (rd, wr)) ->
    chain_get opts "DUMP1090_URL" = Some (VStr src) ->
    family (scheme (urlparse env src)) = TcpFamily ->
    with_pymodes env = true ->
    queue_accepts_loop env = true ->
    sub_format (scheme (urlparse env src)) = None ->
    run_main env opts
    = (Raise ValueError,
       mkWorld (prologue_at u rd wr ++ [EvNewQueue net_queue]) [] 0%nat) ->
    RunPath env opts
| PathOtherScheme (u : ParseResult) (src : string) (rd wr : Handle) :
    destination env opts = Some (u, Some (rd, wr)) ->
    chain_get opts "DUMP1090_URL" = Some (VStr src) ->
    family (scheme (urlparse env src)) = OtherFamily ->
    run_main env opts
    = (Raise (UnboundLocalError "message_worker"),
       mkWorld (prologue_at u rd wr ++ [EvPut tx_queue (hello env)])
               [hello env] 0%nat) ->
    RunPath env opts.

(** The set-up calls of [cli] for a configuration file, and for a filter
    file when one is named. *)
Definition setup_trace (config_file : string) (filter_file : option string)
  : list Event :=
  [ EvLog "Reading configuration from %s" config_file; EvReadFile config_file ]
  ++ match filter_file with
     | Some f => [ EvPrint f; EvLog "Reading filters from %s" f; EvReadFile f ]
     | None => []
     end.

(** Sample surroundings of [cli] with a process environment, an interpreter
    version, and a config file read as the given sections. *)
Definition sample_cli_env (environment : gmap string string) (ini : IniData)
    (new_python : bool) : CliEnv :=
  mkCliEnv (Sample.env true) (ArgvParsed None) environment
           (fun _ => Some ini) new_python.
(** * Properties *)

Example str_in_https : PyStr.str_in "http" "https" = true.
Proof. reflexivity. Qed.

Example str_in_tcp_beast : PyStr.str_in "tcp" "tcp+beast" = true.
Proof. reflexivity. Qed.

Example str_in_udp : PyStr.str_in "http" "udp" = false.
Proof. reflexivity. Qed.

Example split_tcp_beast : PyStr.split "+" "tcp+beast" = ["tcp"; "beast"].
Proof. reflexivity. Qed.

Example split_two_plus : PyStr.split "+" "tcp+a+b" = ["tcp"; "a"; "b"].
Proof. reflexivity. Qed.

Example split_no_plus : PyStr.split "+" "tcp" = ["tcp"].
Proof. reflexivity. Qed.

(** ** Facts about the string operations *)

Module PyStrFacts.
Import PyStr.

Lemma starts_with_app (p s : string) :
  starts_with p s = true <-> exists rest, s = p +:+ rest.
Proof.
  revert s. induction p as [|a p IH]; intros s; simpl.
  - split; [intros _; by exists s | done].
  - destruct s as [|b s]; simpl.
    + split; [done | intros [rest H]; discriminate H].
    + rewrite andb_true_iff, Ascii.eqb_eq, IH. split.
      * intros [-> [rest ->]]. by exists rest.
      * intros [rest H]. injection H as -> ->. split; [done | by exists rest].
Qed.

Lemma starts_with_str_in (n s : string) :
  starts_with n s = true -> str_in n s = true.
Proof.
  destruct s as [|c s]; simpl; [done |].
  intros ->. done.
Qed.

(** [needle in s] holds exactly when [s] is some text, the needle, and some
    more text. *)
Lemma str_in_app (n s : string) :
  str_in n s = true <-> exists a b, s = a +:+ n +:+ b.
Proof.
  split.
  - induction s as [|c s IH]; simpl.
    + destruct n; [| done]. intros _. by exists EmptyString, EmptyString.
    + rewrite orb_true_iff. intros [H | H].
      * apply starts_with_app in H as [rest H]. by exists EmptyString, rest.
      * destruct (IH H) as (a & b & ->). by exists (String c a), b.
  - intros (a & b & ->). induction a as [|c a IH]; simpl.
    + apply starts_with_str_in, starts_with_app. by exists b.
    + rewrite IH. apply orb_true_r.
Qed.

Lemma str_in_char (c : ascii) (s : string) :
  str_in (String c EmptyString) s = true <-> occurrences c s <> 0%nat.
Proof.
  induction s as [|d s IH]; simpl; [done |].
  rewrite orb_true_iff, IH, andb_true_iff, (Ascii.eqb_sym c d).
  destruct (Ascii.eqb d c); simpl.
  - split; [done | intros _; left; split; [done | by destruct s]].
  - split; [by intros [[? _] | ?] | by right].
Qed.

Lemma split_length (c : ascii) (s : string) :
  length (split c s) = S (occurrences c s).
Proof.
  induction s as [|d s IH]; simpl; [done |].
  destruct (Ascii.eqb d c); simpl.
  - by rewrite IH.
  - destruct (split c s); simpl in *; [done | lia].
Qed.

Lemma split_none (c : ascii) (s : string) :
  occurrences c s = 0%nat -> split c s = [s].
Proof.
  induction s as [|d s IH]; simpl; [done |].
  destruct (Ascii.eqb d c); simpl; [done |].
  intros H. by rewrite IH.
Qed.

(** With one separator the two pieces are what stands before it and what
    stands after it. *)
Lemma split_one (c : ascii) (s : string) :
  occurrences c s = 1%nat ->
  exists a b, split c s = [a; b] /\ s = a +:+ String c b
              /\ occurrences c a = 0%nat /\ occurrences c b = 0%nat.
Proof.
  induction s as [|d s IH]; simpl; [done |].
  destruct (Ascii.eqb d c) eqn:E; simpl.
  - intros H. apply Ascii.eqb_eq in E as ->.
    exists EmptyString, s. rewrite split_none by lia.
    repeat split; lia.
  - intros H. destruct (IH H) as (a & b & -> & -> & Ha & Hb).
    exists (String d a), b. simpl. rewrite E. by repeat split.
Qed.

Lemma occurrences_app (c : ascii) (a b : string) :
  occurrences c (a +:+ b) = (occurrences c a + occurrences c b)%nat.
Proof.
  induction a as [|d a IH]; simpl; [done |]. rewrite IH. lia.
Qed.

(** The text after the first separator is determined by the string. *)
Lemma after_first_unique (c : ascii) (a a' b b' : string) :
  occurrences c a = 0%nat -> occurrences c a' = 0%nat ->
  a +:+ String c b = a' +:+ String c b' -> b = b'.
Proof.
  revert a'. induction a as [|d a IH]; intros [|d' a'] Ha Ha' E; simpl in *.
  - by injection E.
  - injection E as <- _. by rewrite Ascii.eqb_refl in Ha'.
  - injection E as -> _. by rewrite Ascii.eqb_refl in Ha.
  - injection E as <- E.
    destruct (Ascii.eqb d c); [done |]. by apply (IH a').
Qed.

End PyStrFacts.

Lemma for_each_print (env : Env) (done : list (TaskId * Completion)) (w : World) :
  for_each done
    (fun task => print ("Task completed: " +:+ task_repr env (fst task) (snd task))) w
  = (Ret tt, mkWorld (trace w ++ report env done) (outbound w) (next_task w)).
Proof.
  revert w. induction done as [|task done IH]; intros w; simpl.
  - unfold ret. rewrite app_nil_r. by destruct w.
  - unfold bind, print, emit at 1. rewrite IH. simpl. by rewrite <- app_assoc.
Qed.

(** Opens [main] on the goal, at the record handed to the transport. *)
Ltac enter_main Hdest :=
  revert Hdest; unfold destination, run_main, main;
  destruct (chain_get _ "COT_URL") as [[?cot|?f]|]; intros Hdest;
  [| discriminate Hdest |];
  let Hpf := fresh "Hpf" in
  injection Hdest as <- Hpf; run_step; rewrite ?Hpf.

Section RunsAt.
Variables (env : Env) (opts : ChainMap Value).

(** The destination URL is an object that is no string. *)
Lemma run_bad_destination :
  destination env opts = None ->
  run_main env opts
  = (Raise AttributeError, mkWorld [EvNewQueue tx_queue; EvNewQueue rx_queue] [] 0%nat).
Proof.
  unfold destination, run_main, main.
  by destruct (chain_get _ "COT_URL") as [[cot|f]|].
Qed.

(** The destination does not answer. *)
Lemma run_unreachable_at (u : ParseResult) :
  destination env opts = Some (u, None) ->
  run_main env opts
  = (Raise TransportError,
     mkWorld [EvNewQueue tx_queue; EvNewQueue rx_queue; EvConnect u] [] 0%nat).
Proof. intros Hdest. by enter_main Hdest. Qed.

(** The source URL is not a string of the options: the bytes record of an
    absent key fails the first test on its scheme, another object fails in
    [urlparse]. *)
Lemma run_no_source_at (u : ParseResult) (rd wr : Handle) :
  destination env opts = Some (u, Some (rd, wr)) ->
  (forall src, chain_get opts "DUMP1090_URL" <> Some (VStr src)) ->
  exists e,
    run_main env opts = (Raise e, mkWorld (prologue_at u rd wr) [] 0%nat)
    /\ (chain_get opts "DUMP1090_URL" = None -> e = TypeError).
Proof.
  intros Hdest H. enter_main Hdest;
    (destruct (chain_get opts "DUMP1090_URL") as [[src|f]|];
     [by destruct (H src) | by exists AttributeError | by exists TypeError]).
Qed.

(** The selection goes through: the whole pipeline is started, the wait
    returns, the done tasks are reported, [main] returns. *)
Lemma run_pipeline_at (u : ParseResult) (rd wr : Handle) (src : string)
    (st : Strategy) :
  destination env opts = Some (u, Some (rd, wr)) ->
  chain_get opts "DUMP1090_URL" = Some (VStr src) ->
  strategy env (scheme (urlparse env src)) = Some st ->
  run_main env opts
  = (Ret tt,
     mkWorld (prologue_at u rd wr ++ selection env opts src st
              ++ launch env opts src rd wr st
              ++ report env (wait_done env (task_set st)))
             [hello env] (early_tasks st + 3)).
Proof.
  unfold strategy, family, sub_format. intros Hdest Hsrc Hst.
  enter_main Hdest; rewrite Hsrc; run_step;
    (destruct (PyStr.str_in "http" _) eqn:Hhttp;
     [ injection Hst as <-; run_step; by rewrite for_each_print |]);
    (destruct (PyStr.str_in "tcp" _) eqn:Htcp; [| done]);
    (destruct (with_pymodes env) eqn:Hpy; [| done]);
    unfold new_queue_with_loop;
    (destruct (queue_accepts_loop env) eqn:Hq; [| done]);
    (destruct (PyStr.str_in "+" _) eqn:Hplus;
     [ destruct (PyStr.split "+" _) as [|a [|dt [|c pieces]]]; try done |]);
    injection Hst as <-; run_step; by rewrite for_each_print.
Qed.

(** A stream source without the decoder. *)
Lemma run_no_decoder_at (u : ParseResult) (rd wr : Handle) (src : string) :
  destination env opts = Some (u, Some (rd, wr)) ->
  chain_get opts "DUMP1090_URL" = Some (VStr src) ->
  family (scheme (urlparse env src)) = TcpFamily ->
  with_pymodes env = false ->
  run_main env opts
  = (Raise BareException,
     mkWorld (prologue_at u rd wr ++ map EvPrint pymodes_diagnostic) [] 0%nat).
Proof.
  unfold family. intros Hdest Hsrc Hfam Hpy.
  enter_main Hdest; rewrite Hsrc; run_step;
    (destruct (PyStr.str_in "http" _); [done |]);
    (destruct (PyStr.str_in "tcp" _); [| done]);
    rewrite Hpy; by run_prints.
Qed.

(** A stream source, the decoder there, on an interpreter whose queues
    take no [loop]: line 74 raises. *)
Lemma run_queue_rejected_at (u : ParseResult) (rd wr : Handle) (src : string) :
  destination env opts = Some (u, Some (rd, wr)) ->
  chain_get opts "DUMP1090_URL" = Some (VStr src) ->
  family (scheme (urlparse env src)) = TcpFamily ->
  with_pymodes env = true ->
  queue_accepts_loop env = false ->
  run_main env opts = (Raise TypeError, mkWorld (prologue_at u rd wr) [] 0%nat).
Proof.
  unfold family. intros Hdest Hsrc Hfam Hpy Hq.
  enter_main Hdest; rewrite Hsrc; run_step;
    (destruct (PyStr.str_in "http" _); [done |]);
    (destruct (PyStr.str_in "tcp" _); [| done]);
    unfold new_queue_with_loop; by rewrite Hpy, Hq.
Qed.

(** A stream source whose scheme does not unpack into two pieces. *)
Lemma run_bad_tag_at (u : ParseResult) (rd wr : Handle) (src : string) :
  destination env opts = Some (u, Some (rd, wr)) ->
  chain_get opts "DUMP1090_URL" = Some (VStr src) ->
  family (scheme (urlparse env src)) = TcpFamily ->
  with_pymodes env = true ->
  queue_accepts_loop env = true ->
  sub_format (scheme (urlparse env src)) = None ->
  run_main env opts
  = (Raise ValueError,
     mkWorld (prologue_at u rd wr ++ [EvNewQueue net_queue]) [] 0%nat).
Proof.
  unfold family, sub_format. intros Hdest Hsrc Hfam Hpy Hq Hfmt.
  enter_main Hdest; rewrite Hsrc; run_step;
    (destruct (PyStr.str_in "http" _); [done |]);
    (destruct (PyStr.str_in "tcp" _); [| done]);
    unfold new_queue_with_loop; rewrite Hpy, Hq;
    (destruct (PyStr.str_in "+" _); [| done]);
    by destruct (PyStr.split "+" _) as [|a [|dt [|c pieces]]].
Qed.

(** A scheme of neither family. *)
Lemma run_other_scheme_at (u : ParseResult) (rd wr : Handle) (src : string) :
  destination env opts = Some (u, Some (rd, wr)) ->
  chain_get opts "DUMP1090_URL" = Some (VStr src) ->
  family (scheme (urlparse env src)) = OtherFamily ->
  run_main env opts
  = (Raise (UnboundLocalError "message_worker"),
     mkWorld (prologue_at u rd wr ++ [EvPut tx_queue (hello env)])
             [hello env] 0%nat).
Proof.
  unfold family. intros Hdest Hsrc Hfam.
  enter_main Hdest; rewrite Hsrc; run_step;
    (destruct (PyStr.str_in "http" _); [done |]);
    by destruct (PyStr.str_in "tcp" _).
Qed.

End RunsAt.

(** The same runs when the destination URL is a string of the options. *)
Section Runs.
Variables (env : Env) (opts : ChainMap Value) (cot : string).
Hypothesis Hcot : chain_get opts "COT_URL" = Some (VStr cot).

(** The destination does not answer. *)
Lemma run_unreachable :
  protocol_factory env (urlparse env cot) = None ->
  run_main env opts
  = (Raise TransportError,
     mkWorld [EvNewQueue tx_queue; EvNewQueue rx_queue; EvConnect (urlparse env cot)]
             [] 0%nat).
Proof.
  intros Hconn. apply run_unreachable_at. unfold destination.
  by rewrite Hcot, Hconn.
Qed.

Variables (rd wr : Handle).
Hypothesis Hconn : protocol_factory env (urlparse env cot) = Some (rd, wr).

Lemma destination_str :
  destination env opts = Some (urlparse env cot, Some (rd, wr)).
Proof. unfold destination. by rewrite Hcot, Hconn. Qed.

Variable src : string.
Hypothesis Hsrc : chain_get opts "DUMP1090_URL" = Some (VStr src).

Lemma run_pipeline (st : Strategy) :
  strategy env (scheme (urlparse env src)) = Some st ->
  run_main env opts
  = (Ret tt,
     mkWorld (prologue env cot rd wr ++ selection env opts src st
              ++ launch env opts src rd wr st
              ++ report env (wait_done env (task_set st)))
             [hello env] (early_tasks st + 3)).
Proof. intros Hst. exact (run_pipeline_at _ _ _ _ _ _ _ destination_str Hsrc Hst). Qed.

Lemma run_no_decoder :
  family (scheme (urlparse env src)) = TcpFamily ->
  with_pymodes env = false ->
  run_main env opts
  = (Raise BareException,
     mkWorld (prologue env cot rd wr ++ map EvPrint pymodes_diagnostic) [] 0%nat).
Proof.
  intros Hfam Hpy.
  exact (run_no_decoder_at _ _ _ _ _ _ destination_str Hsrc Hfam Hpy).
Qed.

Lemma run_queue_rejected :
  family (scheme (urlparse env src)) = TcpFamily ->
  with_pymodes env = true ->
  queue_accepts_loop env = false ->
  run_main env opts = (Raise TypeError, mkWorld (prologue env cot rd wr) [] 0%nat).
Proof.
  intros Hfam Hpy Hq.
  exact (run_queue_rejected_at _ _ _ _ _ _ destination_str Hsrc Hfam Hpy Hq).
Qed.

Lemma run_bad_tag :
  family (scheme (urlparse env src)) = TcpFamily ->
  with_pymodes env = true ->
  queue_accepts_loop env = true ->
  sub_format (scheme (urlparse env src)) = None ->
  run_main env opts
  = (Raise ValueError,
     mkWorld (prologue env cot rd wr ++ [EvNewQueue net_queue]) [] 0%nat).
Proof.
  intros Hfam Hpy Hq Hfmt.
  exact (run_bad_tag_at _ _ _ _ _ _ destination_str Hsrc Hfam Hpy Hq Hfmt).
Qed.

Lemma run_other_scheme :
  family (scheme (urlparse env src)) = OtherFamily ->
  run_main env opts
  = (Raise (UnboundLocalError "message_worker"),
     mkWorld (prologue env cot rd wr ++ [EvPut tx_queue (hello env)])
             [hello env] 0%nat).
Proof.
  intros Hfam. exact (run_other_scheme_at _ _ _ _ _ _ destination_str Hsrc Hfam).
Qed.

End Runs.

Lemma run_main_cases (env : Env) (opts : ChainMap Value) : RunCase env opts.
Proof.
  destruct (destination env opts) as [[u [[rd wr]|]]|] eqn:Hdest;
    [| eapply Aborted; [by apply run_unreachable_at | done | done]
     | eapply Aborted; [by apply run_bad_destination | done | done]].
  destruct (chain_get opts "DUMP1090_URL") as [[src|f]|] eqn:Hsrc;
    [| destruct (run_no_source_at env opts u rd wr Hdest) as (e & He & _);
       [congruence | eapply Aborted; [exact He | done | done]] ..].
  destruct (strategy env (scheme (urlparse env src))) as [st|] eqn:Hst;
    [by eapply Piped |].
  unfold strategy in Hst.
  destruct (family (scheme (urlparse env src))) eqn:Hfam; [done | |].
  - destruct (with_pymodes env) eqn:Hpy.
    + destruct (queue_accepts_loop env) eqn:Hq.
      * destruct (sub_format (scheme (urlparse env src))) eqn:Hfmt; [done |].
        eapply Aborted; [by eapply run_bad_tag_at | done | done].
      * eapply Aborted; [by eapply run_queue_rejected_at | done | done].
    + eapply Aborted; [by eapply run_no_decoder_at | done | done].
  - eapply Aborted; [by eapply run_other_scheme_at | done | done].
Qed.

(** ** Facts about reading a trace *)

Lemma started_app (l1 l2 : list Event) :
  started (l1 ++ l2) = started l1 ++ started l2.
Proof.
  induction l1 as [|e l1 IH]; simpl; [done |].
  destruct e; simpl; by rewrite ?IH.
Qed.

Lemma started_report (env : Env) (done : list (TaskId * Completion)) :
  started (report env done) = [].
Proof. by induction done. Qed.

Lemma puts_report (env : Env) (done : list (TaskId * Completion)) :
  puts (report env done) = [].
Proof. by induction done. Qed.

Lemma cancelled_app (l1 l2 : list Event) :
  cancelled (l1 ++ l2) = cancelled l1 ++ cancelled l2.
Proof.
  induction l1 as [|e l1 IH]; simpl; [done |].
  destruct e; simpl; by rewrite ?IH.
Qed.

Lemma cancelled_report (env : Env) (done : list (TaskId * Completion)) :
  cancelled (report env done) = [].
Proof. by induction done. Qed.

Lemma constructed_report (env : Env) (done : list (TaskId * Completion)) :
  constructed (report env done) = [].
Proof. by induction done. Qed.

Lemma constructed_app (l1 l2 : list Event) :
  constructed (l1 ++ l2) = constructed l1 ++ constructed l2.
Proof.
  induction l1 as [|e l1 IH]; simpl; [done |].
  destruct e; simpl; by rewrite ?IH.
Qed.

Lemma connections_report (env : Env) (done : list (TaskId * Completion)) :
  connections (report env done) = [].
Proof. by induction done. Qed.

Lemma connections_app (l1 l2 : list Event) :
  connections (l1 ++ l2) = connections l1 ++ connections l2.
Proof.
  induction l1 as [|e l1 IH]; simpl; [done |].
  destruct e; simpl; by rewrite ?IH.
Qed.

Lemma printed_report (env : Env) (done : list (TaskId * Completion)) :
  printed (report env done)
  = map (fun task => "Task completed: " +:+ task_repr env (fst task) (snd task)) done.
Proof. induction done as [|task done IH]; simpl; [done | by rewrite IH]. Qed.

Lemma report_only_prints (env : Env) (done : list (TaskId * Completion)) :
  Forall (fun ev => exists line, ev = EvPrint line) (report env done).
Proof. induction done; simpl; constructor; eauto. Qed.

(** ** Where an event stands in a trace *)

Section Position.
Context {A : Type} (P : A -> Prop).

(** An element with [P] between two stretches without it is found at
    that place only. *)
Lemma unique_position (l1 l2 pre post : list A) (x y : A) :
  Forall (fun a => ~ P a) l1 -> Forall (fun a => ~ P a) l2 -> P y ->
  l1 ++ x :: l2 = pre ++ y :: post ->
  pre = l1 /\ y = x /\ post = l2.
Proof.
  intros H1 H2 Hy. revert pre. induction H1 as [|a l1 Ha H1 IH]; intros pre E.
  - destruct pre as [|z pre]; simpl in E.
    + by injection E as -> ->.
    + injection E as -> ->. apply Forall_app in H2 as [_ H2].
      by apply Forall_cons in H2 as [H2 _].
  - destruct pre as [|z pre]; simpl in E.
    + injection E as -> _. done.
    + injection E as -> E. destruct (IH pre E) as (-> & -> & ->). done.
Qed.

Lemma no_position (l pre post : list A) (y : A) :
  Forall (fun a => ~ P a) l -> P y -> l <> pre ++ y :: post.
Proof.
  intros H Hy ->. apply Forall_app in H as [_ H].
  by apply Forall_cons in H as [H _].
Qed.
End Position.

(** ** The sub-format tag *)

Lemma sub_format_no_plus (s : string) :
  PyStr.occurrences "+" s = 0%nat -> sub_format s = Some "raw".
Proof.
  intros H. unfold sub_format.
  destruct (PyStr.str_in "+" s) eqn:E; [| done].
  apply PyStrFacts.str_in_char in E. done.
Qed.

Lemma sub_format_one_plus (s : string) :
  PyStr.occurrences "+" s = 1%nat ->
  exists a b, s = a +:+ "+" +:+ b /\ sub_format s = Some b
              /\ PyStr.occurrences "+" a = 0%nat /\ PyStr.occurrences "+" b = 0%nat.
Proof.
  intros H. destruct (PyStrFacts.split_one "+" s H) as (a & b & Hs & -> & Ha & Hb).
  exists a, b. repeat split; [| done | done].
  unfold sub_format. rewrite Hs.
  destruct (PyStr.str_in "+" _) eqn:E; [done |].
  assert (PyStr.str_in "+" (a +:+ String "+" b) = true) as E'; [| congruence].
  apply PyStrFacts.str_in_app. by exists a, b.
Qed.

Lemma sub_format_more_plus (s : string) :
  (2 <= PyStr.occurrences "+" s)%nat -> sub_format s = None.
Proof.
  intros H. unfold sub_format.
  pose proof (PyStrFacts.split_length "+" s) as L.
  destruct (PyStr.str_in "+" s) eqn:E.
  - destruct (PyStr.split "+" s) as [|a [|b [|c l]]]; simpl in L; [done | done | lia | done].
  - assert (PyStr.occurrences "+" s <> 0%nat) as N by lia.
    apply PyStrFacts.str_in_char in N. congruence.
Qed.

(** When the selection goes through, in the words of the tests [main]
    makes. *)
Lemma strategy_poll (env : Env) (s : string) :
  PyStr.str_in "http" s = true -> strategy env s = Some Poll.
Proof. unfold strategy, family. by intros ->. Qed.

Lemma strategy_stream (env : Env) (s dt : string) :
  PyStr.str_in "http" s = false -> PyStr.str_in "tcp" s = true ->
  with_pymodes env = true -> queue_accepts_loop env = true ->
  sub_format s = Some dt ->
  strategy env s = Some (Stream dt).
Proof. unfold strategy, family. by intros -> -> -> -> ->. Qed.

Lemma strategy_inv (env : Env) (s : string) (st : Strategy) :
  strategy env s = Some st ->
  (PyStr.str_in "http" s = true /\ st = Poll)
  \/ (PyStr.str_in "http" s = false /\ PyStr.str_in "tcp" s = true
      /\ with_pymodes env = true
      /\ queue_accepts_loop env = true
      /\ exists dt, sub_format s = Some dt /\ st = Stream dt).
Proof.
  unfold strategy, family.
  destruct (PyStr.str_in "http" s); [intros [= <-]; by left |].
  destruct (PyStr.str_in "tcp" s); [| done].
  destruct (with_pymodes env); [| done].
  destruct (queue_accepts_loop env); [| done].
  destruct (sub_format s) as [dt|]; [| done].
  intros [= <-]. right. eauto 10.
Qed.


(** ** Start-up failures inside [main] *)

(** C1, as amended.  A stream source (the scheme passes the "tcp" test and
    not the "http" test) without the decoder: [main] has already obtained
    the transport pair of the CoT destination; it then prints the
    diagnostic and raises, which ends the process with status 1.  No Net
    Receiver and no Source Worker exist, so nothing can connect to the
    source, and no task was created. *)
Theorem missing_decoder_fails_fast (env : Env) (opts : ChainMap Value)
    (cot src : string) (rd wr : Handle) :
  chain_get opts "COT_URL" = Some (VStr cot) ->
  protocol_factory env (urlparse env cot) = Some (rd, wr) ->
  chain_get opts "DUMP1090_URL" = Some (VStr src) ->
  family (scheme (urlparse env src)) = TcpFamily ->
  with_pymodes env = false ->
  let r := run_main env opts in
  fst r = Raise BareException
  /\ exit_status (fst r) <> 0%Z
  /\ trace (snd r) = prologue env cot rd wr ++ map EvPrint pymodes_diagnostic
  /\ printed (trace (snd r)) = pymodes_diagnostic
  /\ connections (trace (snd r)) = [urlparse env cot]
  /\ ingestion_objects (trace (snd r)) = []
  /\ started (trace (snd r)) = []
  /\ puts (trace (snd r)) = [].
Proof.
  intros Hcot Hconn Hsrc Hfam Hpy r. subst r.
  rewrite (run_no_decoder env opts cot Hcot rd wr Hconn src Hsrc Hfam Hpy).
  by repeat split.
Qed.

Lemma missing_decoder_fails_fast_witness :
  let r := run_main (Sample.env false) (Sample.opts Inputs.stream_url) in
  fst r = Raise BareException
  /\ exit_status (fst r) <> 0%Z
  /\ trace (snd r)
     = prologue (Sample.env false) Inputs.cot_url 7 8 ++ map EvPrint pymodes_diagnostic
  /\ printed (trace (snd r)) = pymodes_diagnostic
  /\ connections (trace (snd r)) = [Sample.urlparse Inputs.cot_url]
  /\ ingestion_objects (trace (snd r)) = []
  /\ started (trace (snd r)) = []
  /\ puts (trace (snd r)) = [].
Proof.
  apply (missing_decoder_fails_fast (Sample.env false)
           (Sample.opts Inputs.stream_url) Inputs.cot_url Inputs.stream_url 7 8);
    reflexivity.
Defined.

(** C1 as it is written does not hold: with a stream source and no decoder
    the run ends after the CoT destination was connected, not before. *)
Lemma missing_decoder_connects_first :
  family (scheme (urlparse (Sample.env false) Inputs.stream_url)) = TcpFamily
  /\ with_pymodes (Sample.env false) = false
  /\ fst (run_main (Sample.env false) (Sample.opts Inputs.stream_url))
     = Raise BareException
  /\ connections (trace (snd (run_main (Sample.env false)
                                       (Sample.opts Inputs.stream_url))))
     <> [].
Proof. by repeat split. Qed.

(** C8.  A scheme that passes neither test: nothing is printed and no
    exit is asked for; the destination is connected, the hello event is
    put on the outbound queue, and the run ends in the unbound-variable
    error of [message_worker], no ingestion object constructed and no task
    created. *)
Theorem other_scheme_unbound_worker (env : Env) (opts : ChainMap Value)
    (cot src : string) (rd wr : Handle) :
  chain_get opts "COT_URL" = Some (VStr cot) ->
  protocol_factory env (urlparse env cot) = Some (rd, wr) ->
  chain_get opts "DUMP1090_URL" = Some (VStr src) ->
  PyStr.str_in "http" (scheme (urlparse env src)) = false ->
  PyStr.str_in "tcp" (scheme (urlparse env src)) = false ->
  let r := run_main env opts in
  fst r = Raise (UnboundLocalError "message_worker")
  /\ trace (snd r) = prologue env cot rd wr ++ [EvPut tx_queue (hello env)]
  /\ printed (trace (snd r)) = []
  /\ connections (trace (snd r)) = [urlparse env cot]
  /\ puts (trace (snd r)) = [hello env]
  /\ outbound (snd r) = [hello env]
  /\ ingestion_objects (trace (snd r)) = []
  /\ started (trace (snd r)) = [].
Proof.
  intros Hcot Hconn Hsrc Hhttp Htcp r. subst r.
  rewrite (run_other_scheme env opts cot Hcot rd wr Hconn src Hsrc).
  - by repeat split.
  - unfold family. by rewrite Hhttp, Htcp.
Qed.

Lemma other_scheme_unbound_worker_witness :
  let r := run_main (Sample.env true) (Sample.opts Inputs.udp_url) in
  fst r = Raise (UnboundLocalError "message_worker")
  /\ trace (snd r)
     = prologue (Sample.env true) Inputs.cot_url 7 8
       ++ [EvPut tx_queue (hello (Sample.env true))]
  /\ printed (trace (snd r)) = []
  /\ connections (trace (snd r)) = [Sample.urlparse Inputs.cot_url]
  /\ puts (trace (snd r)) = [hello (Sample.env true)]
  /\ outbound (snd r) = [hello (Sample.env true)]
  /\ ingestion_objects (trace (snd r)) = []
  /\ started (trace (snd r)) = [].
Proof.
  apply (other_scheme_unbound_worker (Sample.env true)
           (Sample.opts Inputs.udp_url) Inputs.cot_url Inputs.udp_url 7 8);
    reflexivity.
Defined.

(** ** Reading the trace of a complete run *)

Lemma puts_app (l1 l2 : list Event) : puts (l1 ++ l2) = puts l1 ++ puts l2.
Proof.
  induction l1 as [|e l1 IH]; simpl; [done |].
  destruct e as [| | | |[] ?| | | | | |]; simpl; by rewrite ?IH.
Qed.

Lemma printed_app (l1 l2 : list Event) :
  printed (l1 ++ l2) = printed l1 ++ printed l2.
Proof.
  induction l1 as [|e l1 IH]; simpl; [done |].
  destruct e; simpl; by rewrite ?IH.
Qed.

Lemma waits_app (l1 l2 : list Event) : waits (l1 ++ l2) = waits l1 ++ waits l2.
Proof.
  induction l1 as [|e l1 IH]; simpl; [done |].
  destruct e; simpl; by rewrite ?IH.
Qed.

Lemma waits_report (env : Env) (done : list (TaskId * Completion)) :
  waits (report env done) = [].
Proof. by induction done. Qed.

Lemma new_queues_app (l1 l2 : list Event) :
  new_queues (l1 ++ l2) = new_queues l1 ++ new_queues l2.
Proof.
  induction l1 as [|e l1 IH]; simpl; [done |].
  destruct e; simpl; by rewrite ?IH.
Qed.

Lemma new_queues_report (env : Env) (done : list (TaskId * Completion)) :
  new_queues (report env done) = [].
Proof. by induction done. Qed.

(** Pushes the readers through the pieces of a trace. *)
Ltac read_trace :=
  repeat progress
    (rewrite ?started_app, ?constructed_app, ?connections_app, ?printed_app,
       ?cancelled_app, ?puts_app, ?waits_app, ?new_queues_app,
       ?started_report, ?constructed_report, ?connections_report,
       ?cancelled_report, ?puts_report, ?waits_report, ?new_queues_report;
     simpl).

(** ** Every run of [main] *)

Lemma run_main_paths (env : Env) (opts : ChainMap Value) : RunPath env opts.
Proof.
  destruct (destination env opts) as [[u [[rd wr]|]]|] eqn:Hdest;
    [| by eapply PathUnreachable; [| apply run_unreachable_at]
     | by eapply PathBadDestination; [| apply run_bad_destination]].
  destruct (chain_get opts "DUMP1090_URL") as [[src|f]|] eqn:Hsrc;
    [| destruct (run_no_source_at env opts u rd wr Hdest) as (e & He & _);
       [congruence | eapply PathNoSource; [done | congruence | exact He]] ..].
  destruct (strategy env (scheme (urlparse env src))) as [st|] eqn:Hst;
    [by eapply PathPipeline; [..| eapply run_pipeline_at] |].
  unfold strategy in Hst.
  destruct (family (scheme (urlparse env src))) eqn:Hfam; [done | |].
  - destruct (with_pymodes env) eqn:Hpy.
    + destruct (queue_accepts_loop env) eqn:Hq.
      * destruct (sub_format (scheme (urlparse env src))) eqn:Hfmt; [done |].
        by eapply PathBadTag; [..| eapply run_bad_tag_at].
      * by eapply PathQueueRejected; [..| eapply run_queue_rejected_at].
    + by eapply PathNoDecoder; [..| eapply run_no_decoder_at].
  - by eapply PathOtherScheme; [..| eapply run_other_scheme_at].
Qed.

(** Splits a membership in an explicit list into its cases. *)
Ltac in_list H :=
  repeat (apply elem_of_cons in H as [-> | H]);
  try (by apply elem_of_nil in H).

(** The tag lines 76 to 79 give is "raw" for a scheme without "+", and
    otherwise what stands after the one "+" of the scheme. *)
Lemma sub_format_inv (s dt : string) :
  sub_format s = Some dt ->
  (PyStr.occurrences "+" s = 0%nat /\ dt = "raw")
  \/ (exists a, s = a +:+ "+" +:+ dt
                /\ PyStr.occurrences "+" a = 0%nat
                /\ PyStr.occurrences "+" dt = 0%nat).
Proof.
  intros Hdt.
  destruct (PyStr.occurrences "+" s) as [|[|n]] eqn:E.
  - left. rewrite (sub_format_no_plus s E) in Hdt. split; congruence.
  - right. destruct (sub_format_one_plus s E) as (a & b & Hs & Hb & Ha & Hb').
    rewrite Hb in Hdt. injection Hdt as <-. by exists a.
  - rewrite sub_format_more_plus in Hdt by lia. done.
Qed.

(** ** The dispatch on the scheme *)

(** C9.  The dispatch tests containment: whenever "http" stands anywhere
    in the scheme, whatever stands before and after it (so also "tcp") and
    whether or not the decoder is there, [main] builds the poll worker and
    nothing of the stream side, and starts it. *)
Theorem http_substring_selects_poll (env : Env) (opts : ChainMap Value)
    (cot src : string) (rd wr : Handle) (a b : string) :
  chain_get opts "COT_URL" = Some (VStr cot) ->
  protocol_factory env (urlparse env cot) = Some (rd, wr) ->
  chain_get opts "DUMP1090_URL" = Some (VStr src) ->
  scheme (urlparse env src) = a +:+ "http" +:+ b ->
  let r := run_main env opts in
  fst r = Ret tt
  /\ ingestion_objects (trace (snd r)) = [poll_worker env opts src]
  /\ new_queues (trace (snd r)) = [tx_queue; rx_queue]
  /\ map snd (started (trace (snd r)))
     = [poll_worker env opts src; EventReceiver rx_queue rd;
        EventTransmitter tx_queue wr].
Proof.
  intros Hcot Hconn Hsrc Hs r. subst r.
  assert (PyStr.str_in "http" (scheme (urlparse env src)) = true) as Hhttp.
  { apply PyStrFacts.str_in_app. eauto. }
  rewrite (run_pipeline env opts cot Hcot rd wr Hconn src Hsrc Poll
             (strategy_poll env _ Hhttp)).
  unfold ingestion_objects. cbn [fst snd trace]. read_trace. done.
Qed.

Lemma http_substring_selects_poll_witness :
  let env := Sample.env false in
  let r := run_main env (Sample.opts Inputs.mixed_url) in
  PyStr.str_in "tcp" (scheme (urlparse env Inputs.mixed_url)) = true
  /\ fst r = Ret tt
  /\ ingestion_objects (trace (snd r))
     = [poll_worker env (Sample.opts Inputs.mixed_url) Inputs.mixed_url]
  /\ new_queues (trace (snd r)) = [tx_queue; rx_queue]
  /\ map snd (started (trace (snd r)))
     = [poll_worker env (Sample.opts Inputs.mixed_url) Inputs.mixed_url;
        EventReceiver rx_queue 7; EventTransmitter tx_queue 8].
Proof.
  split; [reflexivity |].
  apply (http_substring_selects_poll (Sample.env false)
           (Sample.opts Inputs.mixed_url) Inputs.cot_url Inputs.mixed_url 7 8
           "tcp+" "");
    reflexivity.
Defined.

(** C4, at the input where the code departs from it.  A scheme of the
    tcp family, the decoder there, the destination connected, on an
    interpreter whose [asyncio.Queue] takes no [loop] keyword (3.10 and
    later): the call of line 74 raises [TypeError], so [main] constructs
    neither a Net Receiver nor a stream worker and creates no raw-frame
    queue.  The queues of lines 43 and 44 are created without the
    keyword. *)
Theorem stream_selection_needs_loop_keyword (env : Env) (opts : ChainMap Value)
    (cot src : string) (rd wr : Handle) :
  chain_get opts "COT_URL" = Some (VStr cot) ->
  protocol_factory env (urlparse env cot) = Some (rd, wr) ->
  chain_get opts "DUMP1090_URL" = Some (VStr src) ->
  family (scheme (urlparse env src)) = TcpFamily ->
  with_pymodes env = true ->
  queue_accepts_loop env = false ->
  let r := run_main env opts in
  fst r = Raise TypeError
  /\ trace (snd r) = prologue env cot rd wr
  /\ ingestion_objects (trace (snd r)) = []
  /\ new_queues (trace (snd r)) = [tx_queue; rx_queue].
Proof.
  intros Hcot Hconn Hsrc Hfam Hpy Hq r. subst r.
  by rewrite (run_queue_rejected env opts cot Hcot rd wr Hconn src Hsrc Hfam Hpy Hq).
Qed.

Lemma stream_selection_needs_loop_keyword_witness :
  let r := run_main Sample.env_py310 (Sample.opts Inputs.stream_url) in
  fst r = Raise TypeError
  /\ trace (snd r) = prologue Sample.env_py310 Inputs.cot_url 7 8
  /\ ingestion_objects (trace (snd r)) = []
  /\ new_queues (trace (snd r)) = [tx_queue; rx_queue].
Proof.
  apply (stream_selection_needs_loop_keyword Sample.env_py310
           (Sample.opts Inputs.stream_url) Inputs.cot_url Inputs.stream_url 7 8);
    reflexivity.
Defined.

(** C5.  In every run, a tag that is passed to a Net Receiver or to a
    stream worker belongs to a source URL of the tcp family, and it is what
    stands after the "+" of the scheme when the scheme contains a "+", and
    "raw" when it contains none; the Net Receiver and the stream worker of
    the run are given this same tag. *)
Theorem stream_tag_after_plus (env : Env) (opts : ChainMap Value) (w : Worker)
    (dt : string) :
  w ∈ constructed (trace (snd (run_main env opts))) ->
  tag_of w = Some dt ->
  exists src,
    chain_get opts "DUMP1090_URL" = Some (VStr src)
    /\ family (scheme (urlparse env src)) = TcpFamily
    /\ (PyStr.str_in "+" (scheme (urlparse env src)) = true ->
        exists a, scheme (urlparse env src) = a +:+ "+" +:+ dt
                  /\ PyStr.occurrences "+" a = 0%nat
                  /\ PyStr.occurrences "+" dt = 0%nat)
    /\ (PyStr.str_in "+" (scheme (urlparse env src)) = false -> dt = "raw")
    /\ ingestion_objects (trace (snd (run_main env opts)))
       = [ADSBNetReceiver net_queue (urlparse env src) dt;
          ADSBNetWorker tx_queue net_queue dt
            (chain_get opts "COT_STALE") (chain_get opts "FILTERS")].
Proof.
  destruct (run_main_paths env opts)
    as [_ -> | u _ -> | u rd wr e _ _ -> | u src rd wr st _ Hsrc Hst ->
        | u src rd wr _ _ _ _ -> | u src rd wr _ _ _ _ _ ->
        | u src rd wr _ _ _ _ _ _ -> | u src rd wr _ _ _ ->];
    cbn [snd trace]; unfold ingestion_objects; read_trace;
    intros Hw Htag; in_list Hw; try discriminate Htag.
  all: destruct st as [|dt0]; simpl in Hw; in_list Hw; try discriminate Htag.
  all: injection Htag as <-.
  all: apply strategy_inv in Hst
         as [[_ [=]] | (Hhttp & Htcp & _ & _ & dt1 & Hfmt & [= <-])].
  all: exists src; split; [done |].
  all: split; [unfold family; by rewrite Hhttp, Htcp |].
  all: destruct (sub_format_inv _ _ Hfmt) as [[H0 ->] | (a & Hs & Ha & Hb)].
  all: repeat split; try done.
  all: try (intros Hin; apply PyStrFacts.str_in_char in Hin; done).
  all: try (intros _; by exists a).
  all: intros Hin;
       assert (PyStr.str_in "+" (scheme (urlparse env src)) = true) as Hin';
       [ rewrite Hs; apply PyStrFacts.str_in_app; by exists a, dt0
       | congruence ].
Qed.

Lemma stream_tag_after_plus_witness :
  let env := Sample.env true in
  let opts := Sample.opts Inputs.stream_url in
  exists src,
    chain_get opts "DUMP1090_URL" = Some (VStr src)
    /\ family (scheme (urlparse env src)) = TcpFamily
    /\ (PyStr.str_in "+" (scheme (urlparse env src)) = true ->
        exists a, scheme (urlparse env src) = a +:+ "+" +:+ "beast"
                  /\ PyStr.occurrences "+" a = 0%nat
                  /\ PyStr.occurrences "+" "beast" = 0%nat)
    /\ (PyStr.str_in "+" (scheme (urlparse env src)) = false -> "beast" = "raw")
    /\ ingestion_objects (trace (snd (run_main env opts)))
       = [ADSBNetReceiver net_queue (urlparse env src) "beast";
          ADSBNetWorker tx_queue net_queue "beast"
            (chain_get opts "COT_STALE") (chain_get opts "FILTERS")].
Proof.
  intros env opts.
  apply (stream_tag_after_plus env opts (net_receiver env Inputs.stream_url "beast")
           "beast").
  - apply list_elem_of_In. vm_compute. repeat (first [by left | right]).
  - reflexivity.
Defined.

(** The tag on the schemes [main] handles: with no "+" it is "raw", with
    one "+" it is what stands after it; both objects of the stream side
    receive it. *)
Lemma stream_tag (env : Env) (opts : ChainMap Value)
    (cot src : string) (rd wr : Handle) (dt : string) :
  chain_get opts "COT_URL" = Some (VStr cot) ->
  protocol_factory env (urlparse env cot) = Some (rd, wr) ->
  chain_get opts "DUMP1090_URL" = Some (VStr src) ->
  family (scheme (urlparse env src)) = TcpFamily ->
  with_pymodes env = true ->
  queue_accepts_loop env = true ->
  (PyStr.occurrences "+" (scheme (urlparse env src)) = 0%nat /\ dt = "raw"
   \/ exists a, scheme (urlparse env src) = a +:+ "+" +:+ dt
                /\ PyStr.occurrences "+" a = 0%nat
                /\ PyStr.occurrences "+" dt = 0%nat) ->
  ingestion_objects (trace (snd (run_main env opts)))
  = [ADSBNetReceiver net_queue (urlparse env src) dt;
     ADSBNetWorker tx_queue net_queue dt
       (chain_get opts "COT_STALE") (chain_get opts "FILTERS")].
Proof.
  intros Hcot Hconn Hsrc Hfam Hpy Hq Htag.
  assert (sub_format (scheme (urlparse env src)) = Some dt) as Hdt.
  { destruct Htag as [[H0 ->] | (a & Hs & Ha & Hb)].
    - by apply sub_format_no_plus.
    - assert (PyStr.occurrences "+" (scheme (urlparse env src)) = 1%nat) as H1.
      { rewrite Hs, PyStrFacts.occurrences_app, Ha.
        change (PyStr.occurrences "+" ("+" +:+ dt))
          with (S (PyStr.occurrences "+" dt)).
        by rewrite Hb. }
      destruct (sub_format_one_plus _ H1) as (a' & b' & Hs' & Hb' & Ha' & _).
      rewrite Hb'. f_equal. rewrite Hs in Hs'.
      symmetry. by apply (PyStrFacts.after_first_unique "+" a a'). }
  rewrite (run_pipeline env opts cot Hcot rd wr Hconn src Hsrc (Stream dt)).
  - unfold ingestion_objects. cbn [fst snd trace]. read_trace. done.
  - unfold strategy. by rewrite Hfam, Hpy, Hq, Hdt.
Qed.

(** ** The order of the calls in a complete run *)

Lemma no_wait_without_waits (tr : list Event) :
  waits tr = [] -> Forall (fun ev => ~ is_wait ev) tr.
Proof.
  induction tr as [|ev tr IH]; [by constructor |].
  destruct ev; simpl; try done; intros H; constructor; auto.
Qed.

Lemma no_start_without_started (P : Event -> Prop) (tr : list Event) :
  (forall ev, P ev -> exists t w, ev = EvEnsureFuture t w) ->
  started tr = [] -> Forall (fun ev => ~ P ev) tr.
Proof.
  intros HP. induction tr as [|ev tr IH]; [by constructor |].
  destruct ev; simpl; try done; intros H; constructor; auto;
    intros (t0 & w0 & E)%HP; discriminate E.
Qed.

Lemma source_start_is_start (ev : Event) :
  is_source_start ev -> exists t w, ev = EvEnsureFuture t w.
Proof. destruct ev; simpl; try done. eauto. Qed.

Lemma receiver_start_is_start (ev : Event) :
  is_receiver_start ev -> exists t w, ev = EvEnsureFuture t w.
Proof. destruct ev; simpl; try done. eauto. Qed.

Lemma report_marks_nothing (P : Event -> Prop) (env : Env)
    (done : list (TaskId * Completion)) :
  (forall line, ~ P (EvPrint line)) ->
  Forall (fun ev => ~ P ev) (report env done).
Proof.
  intros HP. eapply Forall_impl; [apply report_only_prints |].
  intros ev [line ->]. apply HP.
Qed.

(** The trace of a complete run, cut at the wait. *)
Lemma pipeline_at_wait (env : Env) (opts : ChainMap Value) (pro : list Event)
    (src : string) (rd wr : Handle) (st : Strategy) (tail : list Event) :
  pro ++ selection env opts src st
    ++ launch env opts src rd wr st ++ tail
  = (pro ++ selection env opts src st
     ++ [ EvPut tx_queue (hello env);
          EvEnsureFuture (early_tasks st) (source_worker env opts src st);
          EvEnsureFuture (S (early_tasks st)) (EventReceiver rx_queue rd);
          EvEnsureFuture (S (S (early_tasks st))) (EventTransmitter tx_queue wr) ])
    ++ EvWait (task_set st) FIRST_COMPLETED :: tail.
Proof. unfold launch. by rewrite <- !app_assoc. Qed.

(** The same trace, cut at the start of the Source Worker. *)
Lemma pipeline_at_source_start (env : Env) (opts : ChainMap Value)
    (pro : list Event) (src : string) (rd wr : Handle) (st : Strategy)
    (tail : list Event) :
  pro ++ selection env opts src st
    ++ launch env opts src rd wr st ++ tail
  = (pro ++ selection env opts src st
     ++ [ EvPut tx_queue (hello env) ])
    ++ EvEnsureFuture (early_tasks st) (source_worker env opts src st)
    :: [ EvEnsureFuture (S (early_tasks st)) (EventReceiver rx_queue rd);
         EvEnsureFuture (S (S (early_tasks st))) (EventTransmitter tx_queue wr);
         EvWait (task_set st) FIRST_COMPLETED ] ++ tail.
Proof. unfold launch. by rewrite <- !app_assoc. Qed.

(** X12.  Both URLs are strings of the options, the destination answers
    and the selection goes through: the scheme passes the "http" test, or
    it passes the "tcp" test with the decoder there, on an interpreter
    whose queues take the [loop] keyword, and with a tag that unpacks.
    Then [main] creates one task for each worker: the Net Receiver in the
    stream case only, then the selected Source Worker, the Receiver and
    the Transmitter; the tasks are distinct, and the one wait that follows
    is on the set of exactly these tasks. *)
Theorem pipeline_tasks (env : Env) (opts : ChainMap Value)
    (cot src : string) (rd wr : Handle) (st : Strategy) :
  chain_get opts "COT_URL" = Some (VStr cot) ->
  protocol_factory env (urlparse env cot) = Some (rd, wr) ->
  chain_get opts "DUMP1090_URL" = Some (VStr src) ->
  strategy env (scheme (urlparse env src)) = Some st ->
  let r := run_main env opts in
  fst r = Ret tt
  /\ map snd (started (trace (snd r)))
     = match st with
       | Poll => []
       | Stream dt => [ADSBNetReceiver net_queue (urlparse env src) dt]
       end
       ++ [source_worker env opts src st; EventReceiver rx_queue rd;
           EventTransmitter tx_queue wr]
  /\ NoDup (map fst (started (trace (snd r))))
  /\ exists pre ts,
       trace (snd r)
       = pre ++ EvWait ts FIRST_COMPLETED :: report env (wait_done env ts)
       /\ started pre = started (trace (snd r))
       /\ waits pre = []
       /\ forall t, t ∈ ts <-> t ∈ map fst (started (trace (snd r))).
Proof.
  intros Hcot Hconn Hsrc Hst r. subst r.
  rewrite (run_pipeline env opts cot Hcot rd wr Hconn src Hsrc st Hst).
  cbn [fst snd trace]. split; [done |].
  split; [destruct st; read_trace; done |].
  split.
  { destruct st; read_trace; compute_done. }
  eexists _, (task_set st). split; [apply pipeline_at_wait |].
  destruct st; read_trace; (split; [done |]); (split; [done |]);
    intros t; unfold task_set, early_set, early_tasks;
    rewrite !elem_of_union, !elem_of_singleton, !elem_of_cons, elem_of_nil,
      elem_of_empty; tauto.
Qed.

Lemma pipeline_tasks_witness :
  let r := run_main (Sample.env true) (Sample.opts Inputs.stream_url) in
  fst r = Ret tt
  /\ map snd (started (trace (snd r)))
     = [ADSBNetReceiver net_queue (Sample.urlparse Inputs.stream_url) "beast"]
       ++ [source_worker (Sample.env true) (Sample.opts Inputs.stream_url)
             Inputs.stream_url (Stream "beast");
           EventReceiver rx_queue 7; EventTransmitter tx_queue 8]
  /\ NoDup (map fst (started (trace (snd r))))
  /\ exists pre ts,
       trace (snd r)
       = pre ++ EvWait ts FIRST_COMPLETED
              :: report (Sample.env true) (wait_done (Sample.env true) ts)
       /\ started pre = started (trace (snd r))
       /\ waits pre = []
       /\ forall t, t ∈ ts <-> t ∈ map fst (started (trace (snd r))).
Proof.
  apply (pipeline_tasks (Sample.env true) (Sample.opts Inputs.stream_url)
           Inputs.cot_url Inputs.stream_url 7 8 (Stream "beast"));
    reflexivity.
Defined.

(** C7, at the input where the code departs from it.  The start-up
    preconditions hold for a stream source (both URLs given, the
    destination connected, a scheme of the tcp family, the decoder there),
    on an interpreter whose [asyncio.Queue] takes no [loop] keyword (3.10
    and later): line 74 raises [TypeError] before any task is created, so
    no worker is started and nothing is waited for.  The two transport
    workers exist by then, unstarted. *)
Theorem stream_tasks_need_loop_keyword (env : Env) (opts : ChainMap Value)
    (cot src : string) (rd wr : Handle) :
  chain_get opts "COT_URL" = Some (VStr cot) ->
  protocol_factory env (urlparse env cot) = Some (rd, wr) ->
  chain_get opts "DUMP1090_URL" = Some (VStr src) ->
  family (scheme (urlparse env src)) = TcpFamily ->
  with_pymodes env = true ->
  queue_accepts_loop env = false ->
  let r := run_main env opts in
  fst r = Raise TypeError
  /\ exit_status (fst r) <> 0%Z
  /\ started (trace (snd r)) = []
  /\ waits (trace (snd r)) = []
  /\ puts (trace (snd r)) = []
  /\ constructed (trace (snd r))
     = [EventTransmitter tx_queue wr; EventReceiver rx_queue rd].
Proof.
  intros Hcot Hconn Hsrc Hfam Hpy Hq r. subst r.
  by rewrite (run_queue_rejected env opts cot Hcot rd wr Hconn src Hsrc Hfam Hpy Hq).
Qed.

Lemma stream_tasks_need_loop_keyword_witness :
  let r := run_main Sample.env_py310 (Sample.opts Inputs.plain_stream_url) in
  fst r = Raise TypeError
  /\ exit_status (fst r) <> 0%Z
  /\ started (trace (snd r)) = []
  /\ waits (trace (snd r)) = []
  /\ puts (trace (snd r)) = []
  /\ constructed (trace (snd r))
     = [EventTransmitter tx_queue 8; EventReceiver rx_queue 7].
Proof.
  apply (stream_tasks_need_loop_keyword Sample.env_py310
           (Sample.opts Inputs.plain_stream_url) Inputs.cot_url
           Inputs.plain_stream_url 7 8);
    reflexivity.
Defined.

(** ** The wait and the return *)

(** C2.  In every run that reaches the wait: the wait is on the tasks
    created before it and returns at the first completion; whichever tasks
    the library reports done, and however each of them ended, [main] prints
    one line for each and returns.  After the wait it creates no task, and
    in the whole run it cancels none. *)
Theorem first_completed_then_return (env : Env) (opts : ChainMap Value)
    (pre post : list Event) (ts : gset TaskId) (rw : ReturnWhen) :
  trace (snd (run_main env opts)) = pre ++ EvWait ts rw :: post ->
  rw = FIRST_COMPLETED
  /\ (forall t, t ∈ ts <-> t ∈ map fst (started pre))
  /\ waits pre = []
  /\ fst (run_main env opts) = Ret tt
  /\ post = report env (wait_done env ts)
  /\ printed post
     = map (fun task => "Task completed: " +:+ task_repr env (fst task) (snd task))
           (wait_done env ts)
  /\ started post = []
  /\ waits post = []
  /\ cancelled (trace (snd (run_main env opts))) = [].
Proof.
  intros E.
  destruct (run_main_cases env opts)
    as [e w Hrun Hst Hw | u src rd wr st Hdest Hsrc Hst].
  - rewrite Hrun in E. cbn [snd] in E. exfalso.
    refine (no_position is_wait _ _ _ (EvWait ts rw) _ _ E); [| done].
    by apply no_wait_without_waits.
  - rewrite (run_pipeline_at env opts u rd wr src st Hdest Hsrc Hst) in *.
    cbn [fst snd trace] in *.
    assert (cancelled (prologue_at u rd wr ++ selection env opts src st
                       ++ launch env opts src rd wr st
                       ++ report env (wait_done env (task_set st))) = []) as Hc.
    { destruct st; read_trace; done. }
    rewrite pipeline_at_wait in E.
    apply (unique_position is_wait) in E as (-> & [= -> ->] & ->); [| | | done].
    + rewrite printed_report, started_report, waits_report.
      split; [done |]. split.
      { intros t. destruct st; read_trace; unfold task_set, early_set, early_tasks;
          rewrite !elem_of_union, !elem_of_singleton, !elem_of_cons,
            elem_of_nil, elem_of_empty; tauto. }
      split; [destruct st; read_trace; done |].
      repeat (split; [reflexivity |]). exact Hc.
    + apply no_wait_without_waits. destruct st; read_trace; done.
    + apply report_marks_nothing. intros line H. exact H.
Qed.

Lemma first_completed_then_return_witness :
  let env := Sample.env true in
  let opts := Sample.opts Inputs.poll_url in
  let pre := prologue env Inputs.cot_url 7 8
             ++ [ EvConstruct (poll_worker env opts Inputs.poll_url);
                  EvPut tx_queue (hello env);
                  EvEnsureFuture 0 (poll_worker env opts Inputs.poll_url);
                  EvEnsureFuture 1 (EventReceiver rx_queue 7);
                  EvEnsureFuture 2 (EventTransmitter tx_queue 8) ] in
  let ts : gset TaskId := ∅ ∪ {[ 0%nat ]} ∪ {[ 1%nat ]} ∪ {[ 2%nat ]} in
  let post := [ EvPrint "Task completed: <Task finished exception>" ] in
  FIRST_COMPLETED = FIRST_COMPLETED
  /\ (forall t, t ∈ ts <-> t ∈ map fst (started pre))
  /\ waits pre = []
  /\ fst (run_main env opts) = Ret tt
  /\ post = report env (wait_done env ts)
  /\ printed post
     = map (fun task => "Task completed: " +:+ task_repr env (fst task) (snd task))
           (wait_done env ts)
  /\ started post = []
  /\ waits post = []
  /\ cancelled (trace (snd (run_main env opts))) = [].
Proof.
  intros env opts pre ts post.
  apply (first_completed_then_return env opts pre post ts FIRST_COMPLETED).
  vm_compute. reflexivity.
Defined.

(** ** The hello event and the order of the task starts *)

(** C6.  In every run, at whatever place the task of the ingestion worker
    (the Source Worker of either variant) is created: exactly one item was
    put on the outbound queue before it, the hello event of this host, and
    [main] puts nothing after it; no other ingestion worker was started
    earlier.  The hello event thus heads the queue, whatever is enqueued
    behind it later. *)
Theorem hello_before_source_worker (env : Env) (opts : ChainMap Value)
    (pre post : list Event) (t : TaskId) (w : Worker) :
  trace (snd (run_main env opts)) = pre ++ EvEnsureFuture t w :: post ->
  is_source_worker w = true ->
  puts pre = [hello env]
  /\ puts post = []
  /\ Forall (fun ev => ~ is_source_start ev) pre
  /\ Forall (fun ev => ~ is_source_start ev) post
  /\ outbound (snd (run_main env opts)) = [hello env]
  /\ forall later : list CoTEvent, head (puts pre ++ later) = Some (hello env).
Proof.
  intros E Hw.
  destruct (run_main_cases env opts)
    as [e w' Hrun Hst Hwt | u src rd wr st Hdest Hsrc Hst].
  - rewrite Hrun in E. cbn [snd] in E. exfalso.
    refine (no_position is_source_start _ _ _ (EvEnsureFuture t w) _ _ E); [| done].
    apply no_start_without_started; [apply source_start_is_start | done].
  - rewrite (run_pipeline_at env opts u rd wr src st Hdest Hsrc Hst) in *.
    cbn [fst snd trace outbound] in *.
    rewrite pipeline_at_source_start in E.
    apply (unique_position is_source_start) in E as (-> & [= -> ->] & ->);
      [| | | done].
    + assert (puts (prologue_at u rd wr ++ selection env opts src st
                    ++ [EvPut tx_queue (hello env)]) = [hello env]) as Hp.
      { destruct st; read_trace; done. }
      rewrite Hp. split; [done |].
      split; [read_trace; done |].
      split; [destruct st; repeat constructor; simpl; auto; discriminate |].
      split.
      { repeat (constructor; [simpl; auto; discriminate |]).
        apply report_marks_nothing. intros line H. exact H. }
      done.
    + destruct st; repeat constructor; simpl; auto; discriminate.
    + repeat (constructor; [simpl; auto; discriminate |]).
      apply report_marks_nothing. intros line H. exact H.
Qed.

Lemma hello_before_source_worker_witness :
  let env := Sample.env true in
  let opts := Sample.opts Inputs.stream_url in
  let pre := prologue env Inputs.cot_url 7 8
             ++ selection env opts Inputs.stream_url (Stream "beast")
             ++ [ EvPut tx_queue (hello env) ] in
  let post := [ EvEnsureFuture 2 (EventReceiver rx_queue 7);
                EvEnsureFuture 3 (EventTransmitter tx_queue 8);
                EvWait (task_set (Stream "beast")) FIRST_COMPLETED;
                EvPrint "Task completed: <Task finished exception>" ] in
  puts pre = [hello env]
  /\ puts post = []
  /\ Forall (fun ev => ~ is_source_start ev) pre
  /\ Forall (fun ev => ~ is_source_start ev) post
  /\ outbound (snd (run_main env opts)) = [hello env]
  /\ forall later : list CoTEvent, head (puts pre ++ later) = Some (hello env).
Proof.
  intros env opts pre post.
  apply (hello_before_source_worker env opts pre post 1%nat
           (stream_worker opts "beast"));
    reflexivity.
Defined.

(** X13.  The order in which [main] creates things, in every run: at
    whatever place the task of a Net Receiver is created, no task exists
    yet and nothing was put on the outbound queue; after it come the hello
    event and the tasks of the stream worker, the Receiver and the
    Transmitter, in this order.  The Net Receiver and the stream worker
    hold the same raw-frame queue.  (Which task the event loop then runs
    first is not part of this statement.) *)
Theorem net_receiver_starts_first (env : Env) (opts : ChainMap Value)
    (pre post : list Event) (t : TaskId) (w : Worker) :
  trace (snd (run_main env opts)) = pre ++ EvEnsureFuture t w :: post ->
  is_net_receiver w = true ->
  started pre = []
  /\ puts pre = []
  /\ puts post = [hello env]
  /\ exists url dt stale filters rd wr pre' post',
       w = ADSBNetReceiver net_queue url dt
       /\ map snd (started post)
          = [ADSBNetWorker tx_queue net_queue dt stale filters;
             EventReceiver rx_queue rd; EventTransmitter tx_queue wr]
       /\ post = pre' ++ EvPut tx_queue (hello env) :: post'
       /\ started pre' = []
       /\ length (started post') = 3%nat.
Proof.
  intros E Hw.
  destruct (run_main_cases env opts)
    as [e w' Hrun Hst Hwt | u src rd wr st Hdest Hsrc Hst].
  - rewrite Hrun in E. cbn [snd] in E. exfalso.
    refine (no_position is_receiver_start _ _ _ (EvEnsureFuture t w) _ _ E); [| done].
    apply no_start_without_started; [apply receiver_start_is_start | done].
  - rewrite (run_pipeline_at env opts u rd wr src st Hdest Hsrc Hst) in *.
    cbn [fst snd trace] in *. destruct st as [|dt].
    + exfalso.
      refine (no_position is_receiver_start _ _ _ (EvEnsureFuture t w) _ _ E); [| done].
      repeat (constructor; [simpl; auto; discriminate |]).
      apply report_marks_nothing. intros line H. exact H.
    + change (prologue_at u rd wr ++ selection env opts src (Stream dt)
              ++ launch env opts src rd wr (Stream dt)
              ++ report env (wait_done env (task_set (Stream dt))))
        with ((prologue_at u rd wr
               ++ [EvNewQueue net_queue; EvConstruct (net_receiver env src dt)])
              ++ EvEnsureFuture 0 (net_receiver env src dt)
              :: ([EvConstruct (stream_worker opts dt)]
                  ++ EvPut tx_queue (hello env)
                  :: [EvEnsureFuture 1 (stream_worker opts dt);
                      EvEnsureFuture 2 (EventReceiver rx_queue rd);
                      EvEnsureFuture 3 (EventTransmitter tx_queue wr);
                      EvWait (task_set (Stream dt)) FIRST_COMPLETED]
                  ++ report env (wait_done env (task_set (Stream dt))))) in E.
      apply (unique_position is_receiver_start) in E as (-> & [= -> ->] & ->);
        [| | | done].
      * split; [done |]. split; [done |].
        split; [read_trace; done |].
        eexists _, dt, _, _, rd, wr, _, _.
        split; [reflexivity |].
        split; [read_trace; reflexivity |].
        split; [reflexivity |].
        split; [done |]. read_trace. done.
      * repeat (constructor; [simpl; auto; discriminate |]). constructor.
      * repeat (constructor; [simpl; auto; discriminate |]).
        apply report_marks_nothing. intros line H. exact H.
Qed.

Lemma net_receiver_starts_first_witness :
  let env := Sample.env true in
  let opts := Sample.opts Inputs.stream_url in
  let pre := prologue env Inputs.cot_url 7 8
             ++ [ EvNewQueue net_queue;
                  EvConstruct (net_receiver env Inputs.stream_url "beast") ] in
  let post := [ EvConstruct (stream_worker opts "beast");
                EvPut tx_queue (hello env);
                EvEnsureFuture 1 (stream_worker opts "beast");
                EvEnsureFuture 2 (EventReceiver rx_queue 7);
                EvEnsureFuture 3 (EventTransmitter tx_queue 8);
                EvWait (task_set (Stream "beast")) FIRST_COMPLETED;
                EvPrint "Task completed: <Task finished exception>" ] in
  started pre = []
  /\ puts pre = []
  /\ puts post = [hello env]
  /\ exists url dt stale filters rd wr pre' post',
       net_receiver env Inputs.stream_url "beast" = ADSBNetReceiver net_queue url dt
       /\ map snd (started post)
          = [ADSBNetWorker tx_queue net_queue dt stale filters;
             EventReceiver rx_queue rd; EventTransmitter tx_queue wr]
       /\ post = pre' ++ EvPut tx_queue (hello env) :: post'
       /\ started pre' = []
       /\ length (started post') = 3%nat.
Proof.
  intros env opts pre post.
  apply (net_receiver_starts_first env opts pre post 0%nat
           (net_receiver env Inputs.stream_url "beast"));
    reflexivity.
Defined.

(** ** Start-up failures in [cli] *)

Ltac cli_step :=
  cbv beta iota delta
    [bind ret raise sys_exit emit print parse_args config_read world0
     trace outbound next_task negb];
  cbn [fst snd app].

(** A trace of set-up calls holds nothing of the pipeline. *)
Lemma setup_only (tr : list Event) :
  Forall is_setup_event tr ->
  new_queues tr = [] /\ connections tr = [] /\ constructed tr = []
  /\ started tr = [] /\ puts tr = [].
Proof.
  induction 1 as [|ev tr Hev _ IH]; [done |].
  destruct ev; simpl in *; done.
Qed.

(** The run of [cli] on a resolved configuration that lacks a URL. *)
Lemma run_cli_missing_url (cenv : CliEnv) (c : ChainMap Value) :
  resolved_config cenv = Some c ->
  truthy (chain_get c "COT_URL") = false
  \/ truthy (chain_get c "DUMP1090_URL") = false ->
  exists before,
    Forall is_setup_event before
    /\ run_cli cenv
       = (SysExit 1,
          mkWorld (before ++ map EvPrint
                     (if truthy (chain_get c "COT_URL")
                      then source_url_diagnostic else cot_url_diagnostic))
                  [] 0%nat).
Proof.
  intros Hc Hmiss. unfold resolved_config in Hc.
  destruct (argv cenv) as [code | given] eqn:Hargv; [done |].
  assert (parse_args cenv = ret (default "config.ini" given)) as Hpa.
  { unfold parse_args. rewrite Hargv. by destruct given. }
  unfold run_cli, cli. rewrite Hpa. clear Hpa.
  generalize dependent (default "config.ini" given). intros file Hc.
  cli_step.
  destruct (read_ini cenv file) as [config|] eqn:Hini; [| done].
  destruct (config !! "adsbcot") as [section|] eqn:Hsec; [| done].
  destruct (truthy_str _) eqn:Hff.
  - destruct (read_ini cenv (default "" _)) as [filters|] eqn:Hfil; [| done].
    match type of Hc with Some ?x = _ => set (cc := x) in * end.
    injection Hc as <-.
    destruct (truthy (chain_get _ "COT_URL")) eqn:Hcot.
    + destruct Hmiss as [Hmiss | Hmiss]; [done |]. rewrite Hmiss.
      eexists [_; _; _; _; _]. split; [| reflexivity]; repeat constructor.
    + eexists [_; _; _; _; _]. split; [| reflexivity]; repeat constructor.
  - match type of Hc with Some ?x = _ => set (cc := x) in * end.
    injection Hc as <-.
    destruct (truthy (chain_get _ "COT_URL")) eqn:Hcot.
    + destruct Hmiss as [Hmiss | Hmiss]; [done |]. rewrite Hmiss.
      eexists [_; _]. split; [| reflexivity]; repeat constructor.
    + eexists [_; _]. split; [| reflexivity]; repeat constructor.
Qed.

(** C3.  The configuration is resolved and lacks the destination URL or
    the source URL (the lookup gives nothing, or the empty string): [cli]
    prints the diagnostic of the first URL that is missing and exits with
    status 1.  Up to there it has only logged, read files and printed:
    [main] is not entered, so no queue, connection, worker or task
    exists. *)
Theorem missing_url_exits_before_main (cenv : CliEnv) (c : ChainMap Value) :
  resolved_config cenv = Some c ->
  truthy (chain_get c "COT_URL") = false
  \/ truthy (chain_get c "DUMP1090_URL") = false ->
  let r := run_cli cenv in
  fst r = SysExit 1
  /\ exit_status (fst r) <> 0%Z
  /\ (exists before,
        printed (trace (snd r))
        = before ++ (if truthy (chain_get c "COT_URL")
                     then source_url_diagnostic else cot_url_diagnostic))
  /\ Forall is_setup_event (trace (snd r))
  /\ new_queues (trace (snd r)) = []
  /\ connections (trace (snd r)) = []
  /\ constructed (trace (snd r)) = []
  /\ started (trace (snd r)) = []
  /\ puts (trace (snd r)) = [].
Proof.
  intros Hc Hmiss r. subst r.
  destruct (run_cli_missing_url cenv c Hc Hmiss) as (before & Hsetup & ->).
  cbn [fst snd trace].
  assert (Forall is_setup_event
            (before ++ map EvPrint
               (if truthy (chain_get c "COT_URL")
                then source_url_diagnostic else cot_url_diagnostic))) as Hall.
  { apply Forall_app. split; [done |].
    destruct (truthy _); repeat constructor. }
  split; [done |]. split; [done |]. split.
  { exists (printed before). rewrite printed_app. by destruct (truthy _). }
  split; [done |]. by apply setup_only.
Qed.

Lemma missing_url_exits_before_main_witness :
  let cenv := sample_cli {[ "DUMP1090_URL" := Inputs.stream_url ]} in
  let c := as_values [ {[ "CONFIG_FILE" := "config.ini" ]}; ∅;
                       {[ "DUMP1090_URL" := Inputs.stream_url ]} ] in
  let r := run_cli cenv in
  fst r = SysExit 1
  /\ exit_status (fst r) <> 0%Z
  /\ (exists before,
        printed (trace (snd r))
        = before ++ (if truthy (chain_get c "COT_URL")
                     then source_url_diagnostic else cot_url_diagnostic))
  /\ Forall is_setup_event (trace (snd r))
  /\ new_queues (trace (snd r)) = []
  /\ connections (trace (snd r)) = []
  /\ constructed (trace (snd r)) = []
  /\ started (trace (snd r)) = []
  /\ puts (trace (snd r)) = [].
Proof.
  intros cenv c.
  apply (missing_url_exits_before_main cenv c).
  - vm_compute. reflexivity.
  - left. vm_compute. reflexivity.
Defined.

(** ** How the calls compose: [main] inside [cli] *)

Lemma framed_ret {A} (a : A) : Framed (ret a).
Proof. intros tr q n. unfold ret. simpl. by rewrite app_nil_r. Qed.

Lemma framed_raise {A} (e : Exn) : Framed (@raise A e).
Proof. intros tr q n. unfold raise. simpl. by rewrite app_nil_r. Qed.

Lemma framed_sys_exit {A} (code : Z) : Framed (@sys_exit A code).
Proof. intros tr q n. unfold sys_exit. simpl. by rewrite app_nil_r. Qed.

Lemma framed_emit (ev : Event) : Framed (emit ev).
Proof. intros tr q n. reflexivity. Qed.

Lemma framed_put_outbound (e : CoTEvent) : Framed (put_outbound e).
Proof. intros tr q n. reflexivity. Qed.

Lemma framed_ensure_future (w : Worker) : Framed (ensure_future w).
Proof. intros tr q n. reflexivity. Qed.

Lemma framed_bind {A B} (m : M A) (k : A -> M B) :
  Framed m -> (forall a, Framed (k a)) -> Framed (bind m k).
Proof.
  intros Hm Hk tr q n. unfold bind. rewrite (Hm tr q n).
  destruct (m (mkWorld [] q n)) as [[a|e|c] [t1 q1 n1]];
    cbn [fst snd trace outbound next_task]; [| done | done].
  rewrite (Hk a (tr ++ t1) q1 n1), (Hk a t1 q1 n1).
  cbn [fst snd trace outbound next_task]. by rewrite app_assoc.
Qed.

Lemma framed_for_each {A} (xs : list A) (body : A -> M unit) :
  (forall x, Framed (body x)) -> Framed (for_each xs body).
Proof.
  intros Hbody. induction xs as [|x xs IH]; simpl.
  - apply framed_ret.
  - apply framed_bind; [apply Hbody | intros _; apply IH].
Qed.

(** Proves [Framed] for a computation built from the primitive calls. *)
Ltac framed :=
  repeat first
    [ apply framed_ret | apply framed_raise | apply framed_sys_exit
    | apply framed_emit | apply framed_put_outbound
    | apply framed_ensure_future
    | apply framed_for_each; intros ?
    | apply framed_bind; [| intros ?]
    | match goal with
      | |- Framed (match ?x with _ => _ end) => destruct x
      | |- Framed (if ?b then _ else _) => destruct b
      end ].

(** [main] only appends to the trace it finds. *)
Lemma main_framed (env : Env) (opts : ChainMap Value) : Framed (main env opts).
Proof.
  unfold main, parse_url, connect, new_queue_with_loop, wait, unpack_second,
    print.
  cbv zeta.
  framed.
Qed.

(** The run of [cli] on a resolved configuration that has both URLs. *)
Lemma run_cli_enters_main (cenv : CliEnv) (c : ChainMap Value) :
  resolved_config cenv = Some c ->
  truthy (chain_get c "COT_URL") = true ->
  truthy (chain_get c "DUMP1090_URL") = true ->
  exists setup,
    Forall is_setup_event setup
    /\ run_cli cenv
       = (fst (run_main (main_env cenv) c),
          mkWorld (setup ++ trace (snd (run_main (main_env cenv) c))
                   ++ (if version_ge_37 cenv then [] else [EvLoopClose]))
                  (outbound (snd (run_main (main_env cenv) c)))
                  (next_task (snd (run_main (main_env cenv) c)))).
Proof.
  intros Hc Hcot Hsrc. unfold resolved_config in Hc.
  destruct (argv cenv) as [code | given] eqn:Hargv; [done |].
  assert (parse_args cenv = ret (default "config.ini" given)) as Hpa.
  { unfold parse_args. rewrite Hargv. by destruct given. }
  unfold run_cli, cli. rewrite Hpa. clear Hpa.
  generalize dependent (default "config.ini" given). intros file Hc.
  cli_step.
  destruct (read_ini cenv file) as [config|] eqn:Hini; [| done].
  destruct (config !! "adsbcot") as [section|] eqn:Hsec; [| done].
  assert (forall setup,
            Forall is_setup_event setup ->
            exists setup',
              Forall is_setup_event setup'
              /\ (if version_ge_37 cenv
                  then main (main_env cenv) c
                  else try_finally (main (main_env cenv) c) (emit EvLoopClose))
                   (mkWorld setup [] 0%nat)
                 = (fst (run_main (main_env cenv) c),
                    mkWorld (setup' ++ trace (snd (run_main (main_env cenv) c))
                             ++ (if version_ge_37 cenv then [] else [EvLoopClose]))
                            (outbound (snd (run_main (main_env cenv) c)))
                            (next_task (snd (run_main (main_env cenv) c))))) as Hmain.
  { intros setup Hsetup. exists setup. split; [done |].
    unfold run_main, world0, try_finally.
    destruct (version_ge_37 cenv);
      rewrite (main_framed (main_env cenv) c setup [] 0%nat);
      [by rewrite app_nil_r |].
    destruct (main (main_env cenv) c (mkWorld [] [] 0%nat)) as [r [t q n]].
    cbn. by rewrite app_assoc. }
  destruct (truthy_str _) eqn:Hff.
  - destruct (read_ini cenv (default "" _)) as [filters|] eqn:Hfil; [| done].
    match type of Hc with Some ?x = _ => set (cc := x) in * end.
    injection Hc as <-. rewrite Hcot, Hsrc. cbn [negb].
    apply Hmain. repeat constructor.
  - match type of Hc with Some ?x = _ => set (cc := x) in * end.
    injection Hc as <-. rewrite Hcot, Hsrc. cbn [negb].
    apply Hmain. repeat constructor.
Qed.

(** X1.  With the configuration resolved and both URLs in it, [cli] runs
    [main] on that configuration: the process ends the way [main] ends,
    with the same exit status, and its calls are the set-up calls of [cli]
    followed by those of [main].  On an interpreter older than 3.7 the
    event loop is closed last, also when [main] raises. *)
Theorem cli_runs_main (cenv : CliEnv) (c : ChainMap Value) :
  resolved_config cenv = Some c ->
  truthy (chain_get c "COT_URL") = true ->
  truthy (chain_get c "DUMP1090_URL") = true ->
  let r := run_cli cenv in
  let rm := run_main (main_env cenv) c in
  fst r = fst rm
  /\ exit_status (fst r) = exit_status (fst rm)
  /\ outbound (snd r) = outbound (snd rm)
  /\ exists setup,
       Forall is_setup_event setup
       /\ trace (snd r)
          = setup ++ trace (snd rm)
            ++ (if version_ge_37 cenv then [] else [EvLoopClose]).
Proof.
  intros Hc Hcot Hsrc r rm. subst r rm.
  destruct (run_cli_enters_main cenv c Hc Hcot Hsrc) as (setup & Hsetup & ->).
  cbn [fst snd trace outbound]. repeat split; try done. by exists setup.
Qed.

Lemma cli_runs_main_witness :
  let cenv :=
    sample_cli_env ∅ {[ "adsbcot" := {[ "COT_URL" := Inputs.cot_url;
                                        "DUMP1090_URL" := Inputs.stream_url ]} ]}
                   false in
  let c := as_values [ {[ "CONFIG_FILE" := "config.ini" ]}; ∅;
                       {[ "COT_URL" := Inputs.cot_url;
                          "DUMP1090_URL" := Inputs.stream_url ]} ] in
  let r := run_cli cenv in
  let rm := run_main (main_env cenv) c in
  fst r = fst rm
  /\ exit_status (fst r) = exit_status (fst rm)
  /\ outbound (snd r) = outbound (snd rm)
  /\ exists setup,
       Forall is_setup_event setup
       /\ trace (snd r)
          = setup ++ trace (snd rm)
            ++ (if version_ge_37 cenv then [] else [EvLoopClose]).
Proof.
  intros cenv c.
  apply (cli_runs_main cenv c); vm_compute; reflexivity.
Defined.

(** ** The configuration [cli] hands to [main] *)

Lemma chain_get_as_values (maps : ChainMap string) (key : string) :
  chain_get (as_values maps) key = VStr <$> chain_get maps key.
Proof.
  induction maps as [|m maps IH]; simpl; [done |].
  rewrite lookup_fmap. destruct (m !! key); simpl; [done | apply IH].
Qed.

Lemma chain_get_app {A} (l1 l2 : ChainMap A) (key : string) :
  chain_get (l1 ++ l2) key
  = match chain_get l1 key with
    | Some v => Some v
    | None => chain_get l2 key
    end.
Proof.
  induction l1 as [|m l1 IH]; simpl; [done |].
  destruct (m !! key); [done | apply IH].
Qed.

(** A lookup in the three string mappings is a lookup in their union, the
    earlier mapping winning. *)
Lemma chain_get_union (m1 m2 m3 : gmap string string) (key : string) :
  chain_get [m1; m2; m3] key = (m1 ∪ m2 ∪ m3) !! key.
Proof.
  simpl. rewrite !lookup_union.
  destruct (m1 !! key), (m2 !! key), (m3 !! key); done.
Qed.

(** What a resolved configuration is made of. *)
Lemma resolved_config_inv (cenv : CliEnv) (c : ChainMap Value) :
  resolved_config cenv = Some c ->
  exists given ini section,
    argv cenv = ArgvParsed given
    /\ read_ini cenv (default "config.ini" given) = Some ini
    /\ ini !! "adsbcot" = Some section
    /\ let strs : ChainMap string :=
         [ {[ "CONFIG_FILE" := default "config.ini" given ]}; environ cenv; section ] in
       (truthy_str (chain_get strs "FILTER_FILE") = false /\ c = as_values strs)
       \/ (truthy_str (chain_get strs "FILTER_FILE") = true
           /\ exists filters,
                read_ini cenv (default "" (chain_get strs "FILTER_FILE")) = Some filters
                /\ c = as_values strs
                       ++ [ ({[ "FILTERS" := VFilters filters ]} : gmap string Value) ]).
Proof.
  unfold resolved_config. intros Hc.
  destruct (argv cenv) as [code | given]; [done |].
  destruct (read_ini cenv (default "config.ini" given)) as [ini|] eqn:Hini; [| done].
  destruct (ini !! "adsbcot") as [section|] eqn:Hsec; [| done].
  exists given, ini, section. repeat (split; [done |]).
  destruct (truthy_str _) eqn:Hff.
  - destruct (read_ini cenv (default "" _)) as [filters|] eqn:Hfil; [| done].
    right. split; [done |]. exists filters. split; [done |]. by injection Hc.
  - left. split; [done |]. by injection Hc.
Qed.

(** X3.  The order of precedence in the configuration handed to [main]:
    the command line (which only ever gives CONFIG_FILE) goes before the
    process environment, which goes before the [adsbcot] section of the
    config file; every value found there is a string. *)
Theorem config_precedence (cenv : CliEnv) (c : ChainMap Value) (key value : string) :
  resolved_config cenv = Some c ->
  exists file section,
    (exists ini, read_ini cenv file = Some ini /\ ini !! "adsbcot" = Some section)
    /\ (({[ "CONFIG_FILE" := file ]} ∪ environ cenv ∪ section) !! key = Some value ->
        chain_get c key = Some (VStr value))
    /\ (key <> "CONFIG_FILE" -> environ cenv !! key = Some value ->
        chain_get c key = Some (VStr value))
    /\ (key <> "CONFIG_FILE" -> environ cenv !! key = None ->
        section !! key = Some value ->
        chain_get c key = Some (VStr value))
    /\ chain_get c "CONFIG_FILE" = Some (VStr file).
Proof.
  intros Hc.
  destruct (resolved_config_inv cenv c Hc)
    as (given & ini & section & Hargv & Hini & Hsec & Hshape).
  exists (default "config.ini" given), section.
  split; [by exists ini |].
  assert (forall k v,
            ({[ "CONFIG_FILE" := default "config.ini" given ]}
               ∪ environ cenv ∪ section) !! k = Some v ->
            chain_get c k = Some (VStr v)) as Hget.
  { intros k v Hk. rewrite <- chain_get_union in Hk.
    destruct Hshape as [[_ ->] | (_ & filters & _ & ->)].
    - by rewrite chain_get_as_values, Hk.
    - by rewrite chain_get_app, chain_get_as_values, Hk. }
  split; [apply Hget |].
  split; [| split].
  - intros Hne He. apply Hget, lookup_union_Some_l.
    by rewrite lookup_union_r by (by apply lookup_singleton_ne).
  - intros Hne He Hs. apply Hget.
    rewrite lookup_union_r; [done |].
    by rewrite lookup_union_r by (by apply lookup_singleton_ne).
  - apply Hget, lookup_union_Some_l, lookup_union_Some_l, lookup_singleton_eq.
Qed.

Lemma config_precedence_witness :
  let cenv :=
    sample_cli_env {[ "COT_URL" := "udp://239.2.3.1:6969" ]}
      {[ "adsbcot" := {[ "COT_URL" := Inputs.cot_url;
                         "DUMP1090_URL" := Inputs.stream_url ]} ]} true in
  let c := as_values [ {[ "CONFIG_FILE" := "config.ini" ]};
                       {[ "COT_URL" := "udp://239.2.3.1:6969" ]};
                       {[ "COT_URL" := Inputs.cot_url;
                          "DUMP1090_URL" := Inputs.stream_url ]} ] in
  exists file section,
    (exists ini, read_ini cenv file = Some ini /\ ini !! "adsbcot" = Some section)
    /\ (({[ "CONFIG_FILE" := file ]} ∪ environ cenv ∪ section) !! "COT_URL"
        = Some "udp://239.2.3.1:6969" ->
        chain_get c "COT_URL" = Some (VStr "udp://239.2.3.1:6969"))
    /\ ("COT_URL" <> "CONFIG_FILE" ->
        environ cenv !! "COT_URL" = Some "udp://239.2.3.1:6969" ->
        chain_get c "COT_URL" = Some (VStr "udp://239.2.3.1:6969"))
    /\ ("COT_URL" <> "CONFIG_FILE" -> environ cenv !! "COT_URL" = None ->
        section !! "COT_URL" = Some "udp://239.2.3.1:6969" ->
        chain_get c "COT_URL" = Some (VStr "udp://239.2.3.1:6969"))
    /\ chain_get c "CONFIG_FILE" = Some (VStr file).
Proof.
  intros cenv c.
  apply (config_precedence cenv c "COT_URL" "udp://239.2.3.1:6969").
  vm_compute. reflexivity.
Defined.

(** X4.  The filter set read from FILTER_FILE is the last mapping of the
    configuration: [main] finds it under "FILTERS" only when neither the
    environment nor the config section has an entry of that name; an entry
    there, a string, is found instead of the filter set. *)
Theorem filters_come_last (cenv : CliEnv) (c : ChainMap Value) :
  resolved_config cenv = Some c ->
  exists file section,
    (exists ini, read_ini cenv file = Some ini /\ ini !! "adsbcot" = Some section)
    /\ let strs : ChainMap string :=
         [ {[ "CONFIG_FILE" := file ]}; environ cenv; section ] in
       match (environ cenv ∪ section) !! "FILTERS" with
       | Some shadow => chain_get c "FILTERS" = Some (VStr shadow)
       | None =>
           if truthy_str (chain_get strs "FILTER_FILE") then
             exists filters,
               read_ini cenv (default "" (chain_get strs "FILTER_FILE")) = Some filters
               /\ chain_get c "FILTERS" = Some (VFilters filters)
           else chain_get c "FILTERS" = None
       end.
Proof.
  intros Hc.
  destruct (resolved_config_inv cenv c Hc)
    as (given & ini & section & Hargv & Hini & Hsec & Hshape).
  exists (default "config.ini" given), section.
  split; [by exists ini |]. cbv zeta.
  assert (chain_get [ {[ "CONFIG_FILE" := default "config.ini" given ]};
                      environ cenv; section ] "FILTERS"
          = (environ cenv ∪ section) !! "FILTERS") as Hstr.
  { rewrite chain_get_union, <- (assoc_L (∪)).
    by rewrite lookup_union_r by (by apply lookup_singleton_ne). }
  destruct Hshape as [[Hff ->] | (Hff & filters & Hfil & ->)]; cbv zeta in Hff;
    rewrite Hff, ?chain_get_app, chain_get_as_values, Hstr;
    destruct ((environ cenv ∪ section) !! "FILTERS"); simpl; try done.
  exists filters. split; [done |]. by rewrite lookup_singleton_eq.
Qed.

Lemma filters_come_last_witness :
  let cenv :=
    sample_cli_env {[ "FILTERS" := "off"; "FILTER_FILE" := "filters.ini" ]}
      {[ "adsbcot" := {[ "COT_URL" := Inputs.cot_url ]} ]} true in
  let c := as_values [ {[ "CONFIG_FILE" := "config.ini" ]};
                       {[ "FILTERS" := "off"; "FILTER_FILE" := "filters.ini" ]};
                       {[ "COT_URL" := Inputs.cot_url ]} ]
           ++ [ ({[ "FILTERS" := VFilters {[ "adsbcot" := {[ "COT_URL" := Inputs.cot_url ]} ]} ]}
                 : gmap string Value) ] in
  resolved_config cenv = Some c
  /\ exists file section,
    (exists ini, read_ini cenv file = Some ini /\ ini !! "adsbcot" = Some section)
    /\ let strs : ChainMap string :=
         [ {[ "CONFIG_FILE" := file ]}; environ cenv; section ] in
       match (environ cenv ∪ section) !! "FILTERS" with
       | Some shadow => chain_get c "FILTERS" = Some (VStr shadow)
       | None =>
           if truthy_str (chain_get strs "FILTER_FILE") then
             exists filters,
               read_ini cenv (default "" (chain_get strs "FILTER_FILE")) = Some filters
               /\ chain_get c "FILTERS" = Some (VFilters filters)
           else chain_get c "FILTERS" = None
       end.
Proof.
  intros cenv c.
  assert (resolved_config cenv = Some c) as Hc by (vm_compute; reflexivity).
  split; [exact Hc |].
  apply (filters_come_last cenv c Hc).
Defined.

(** ** Every run of [main] *)

(** X6.  What [main] never does, in any run: it never asks for the process
    to exit and never cancels a task; it asks for at most one connection
    and creates at most four tasks.  The outbound queue holds what it put,
    the task counter counts the tasks it created, and it returns normally
    exactly when it has waited, once, for the first completion, with at
    least three tasks created. *)
Theorem main_bounds (env : Env) (opts : ChainMap Value) :
  let r := run_main env opts in
  (forall code, fst r <> SysExit code)
  /\ cancelled (trace (snd r)) = []
  /\ (length (connections (trace (snd r))) <= 1)%nat
  /\ (length (started (trace (snd r))) <= 4)%nat
  /\ outbound (snd r) = puts (trace (snd r))
  /\ next_task (snd r) = length (started (trace (snd r)))
  /\ (fst r = Ret tt <-> exists ts, waits (trace (snd r)) = [(ts, FIRST_COMPLETED)])
  /\ (fst r = Ret tt -> (3 <= length (started (trace (snd r))))%nat).
Proof.
  intros r. subst r.
  destruct (run_main_paths env opts)
    as [_ -> | u _ -> | u rd wr e _ _ -> | u src rd wr st _ _ _ ->
        | u src rd wr _ _ _ _ -> | u src rd wr _ _ _ _ _ ->
        | u src rd wr _ _ _ _ _ _ -> | u src rd wr _ _ _ ->];
    cbn [fst snd trace outbound next_task].
  1-3, 5-8:
    repeat split; try done; simpl; try lia;
    try (intros [ts Hts]; discriminate Hts).
  destruct st as [|dt]; read_trace; repeat split; try done; try lia; eauto.
Qed.

(** X7.  In every run, an object that takes a sub-format tag (the Net
    Receiver, the stream worker) takes the one tag of the run: it has no
    "+" in it, every such object of the run has the same, and it is "raw"
    for a scheme without "+" and else what stands after the one "+" of the
    scheme of the source URL. *)
Theorem one_tag_per_run (env : Env) (opts : ChainMap Value) (w : Worker)
    (dt : string) :
  w ∈ constructed (trace (snd (run_main env opts))) ->
  tag_of w = Some dt ->
  PyStr.occurrences "+" dt = 0%nat
  /\ (forall w' dt', w' ∈ constructed (trace (snd (run_main env opts))) ->
                     tag_of w' = Some dt' -> dt' = dt)
  /\ exists src,
       chain_get opts "DUMP1090_URL" = Some (VStr src)
       /\ ((PyStr.occurrences "+" (scheme (urlparse env src)) = 0%nat /\ dt = "raw")
           \/ exists a, scheme (urlparse env src) = a +:+ "+" +:+ dt
                        /\ PyStr.occurrences "+" a = 0%nat).
Proof.
  destruct (run_main_paths env opts)
    as [_ -> | u _ -> | u rd wr e _ _ -> | u src rd wr st _ Hsrc Hst ->
        | u src rd wr _ _ _ _ -> | u src rd wr _ _ _ _ _ ->
        | u src rd wr _ _ _ _ _ _ -> | u src rd wr _ _ _ ->];
    cbn [snd trace]; read_trace; intros Hw Htag; in_list Hw; try discriminate Htag.
  all: destruct st as [|dt0]; simpl in Hw; in_list Hw; try discriminate Htag.
  all: injection Htag as <-.
  all: apply strategy_inv in Hst
         as [[_ [=]] | (_ & _ & _ & _ & dt1 & Hfmt & [= <-])].
  all: destruct (sub_format_inv _ _ Hfmt) as [[H0 Hraw] | (a & Hs & Ha & Hb)].
  all: (split; [by subst; try done |]);
       (split; [intros w' dt' Hw' Htag'; simpl in Hw'; in_list Hw';
                  try discriminate Htag'; by injection Htag' |]);
       exists src; (split; [done |]); eauto.
Qed.

Lemma one_tag_per_run_witness :
  let env := Sample.env true in
  let opts := Sample.opts Inputs.stream_url in
  PyStr.occurrences "+" "beast" = 0%nat
  /\ (forall w' dt', w' ∈ constructed (trace (snd (run_main env opts))) ->
                     tag_of w' = Some dt' -> dt' = "beast")
  /\ exists src,
       chain_get opts "DUMP1090_URL" = Some (VStr src)
       /\ ((PyStr.occurrences "+" (scheme (urlparse env src)) = 0%nat
            /\ "beast" = "raw")
           \/ exists a, scheme (urlparse env src) = a +:+ "+" +:+ "beast"
                        /\ PyStr.occurrences "+" a = 0%nat).
Proof.
  intros env opts.
  apply (one_tag_per_run env opts (stream_worker opts "beast") "beast").
  - apply list_elem_of_In. vm_compute. repeat (first [by left | right]).
  - reflexivity.
Defined.

(** X8.  The wiring of the queues, in every run.  The inbound queue is
    given to the Receiver only, so nothing in the pipeline reads what the
    Receiver stores; the raw-frame queue is given to the Net Receiver and
    the stream worker only; the outbound queue is given to the Transmitter
    and to the Source Worker, and every Source Worker has it. *)
Theorem queue_wiring (env : Env) (opts : ChainMap Value) (w : Worker) :
  w ∈ constructed (trace (snd (run_main env opts))) ->
  (rx_queue ∈ queues_of w -> exists rd, w = EventReceiver rx_queue rd)
  /\ (net_queue ∈ queues_of w ->
      is_net_receiver w = true \/ is_stream_worker w = true)
  /\ (tx_queue ∈ queues_of w ->
      (exists wr, w = EventTransmitter tx_queue wr) \/ is_source_worker w = true)
  /\ (is_source_worker w = true -> tx_queue ∈ queues_of w).
Proof.
  destruct (run_main_paths env opts)
    as [_ -> | u _ -> | u rd wr e _ _ -> | u src rd wr st _ _ _ ->
        | u src rd wr _ _ _ _ -> | u src rd wr _ _ _ _ _ ->
        | u src rd wr _ _ _ _ _ _ -> | u src rd wr _ _ _ ->];
    cbn [snd trace]; read_trace; intros Hw; in_list Hw.
  all: try (destruct st as [|dt0]; simpl in Hw; in_list Hw).
  all: simpl; repeat split; intros H;
       try (apply list_elem_of_In in H; simpl in H;
            repeat (destruct H as [H | H]; try discriminate H); try done);
       eauto; try discriminate H;
       try (apply list_elem_of_In; simpl; tauto).
Qed.

Lemma queue_wiring_witness :
  let env := Sample.env true in
  let opts := Sample.opts Inputs.stream_url in
  let w := EventReceiver rx_queue 7 in
  (rx_queue ∈ queues_of w -> exists rd, w = EventReceiver rx_queue rd)
  /\ (net_queue ∈ queues_of w ->
      is_net_receiver w = true \/ is_stream_worker w = true)
  /\ (tx_queue ∈ queues_of w ->
      (exists wr, w = EventTransmitter tx_queue wr) \/ is_source_worker w = true)
  /\ (is_source_worker w = true -> tx_queue ∈ queues_of w).
Proof.
  intros env opts w.
  apply (queue_wiring env opts w).
  apply list_elem_of_In. vm_compute. repeat (first [by left | right]).
Defined.

(** ** Failures on the way to the pipeline *)

(** X5.  The destination does not answer: the run ends with the error of
    the transport, right after the two queues were created and the
    connection was asked for.  Nothing is printed and no worker object
    exists; the source URL and the decoder flag play no part. *)
Theorem unreachable_destination (env : Env) (opts : ChainMap Value) (cot : string) :
  chain_get opts "COT_URL" = Some (VStr cot) ->
  protocol_factory env (urlparse env cot) = None ->
  let r := run_main env opts in
  fst r = Raise TransportError
  /\ exit_status (fst r) = 1%Z
  /\ trace (snd r)
     = [EvNewQueue tx_queue; EvNewQueue rx_queue; EvConnect (urlparse env cot)]
  /\ printed (trace (snd r)) = []
  /\ constructed (trace (snd r)) = []
  /\ started (trace (snd r)) = []
  /\ outbound (snd r) = [].
Proof.
  intros Hcot Hconn r. subst r.
  by rewrite (run_unreachable env opts cot Hcot Hconn).
Qed.

Lemma unreachable_destination_witness :
  let r := run_main Sample.env_offline (Sample.opts Inputs.udp_url) in
  fst r = Raise TransportError
  /\ exit_status (fst r) = 1%Z
  /\ trace (snd r)
     = [EvNewQueue tx_queue; EvNewQueue rx_queue;
        EvConnect (urlparse Sample.env_offline Inputs.cot_url)]
  /\ printed (trace (snd r)) = []
  /\ constructed (trace (snd r)) = []
  /\ started (trace (snd r)) = []
  /\ outbound (snd r) = [].
Proof.
  apply (unreachable_destination Sample.env_offline
           (Sample.opts Inputs.udp_url) Inputs.cot_url);
    reflexivity.
Defined.

(** X9.  A scheme of the tcp family with two or more "+", the decoder
    there, on an interpreter whose queues take the [loop] keyword (before
    3.10): the unpacking of the split raises [ValueError] after the
    destination was connected and the raw-frame queue created.  No
    diagnostic is printed, no Net Receiver or Source Worker exists, no task
    is created and no hello event is put. *)
Theorem many_plus_scheme_raises (env : Env) (opts : ChainMap Value)
    (cot src : string) (rd wr : Handle) :
  chain_get opts "COT_URL" = Some (VStr cot) ->
  protocol_factory env (urlparse env cot) = Some (rd, wr) ->
  chain_get opts "DUMP1090_URL" = Some (VStr src) ->
  PyStr.str_in "http" (scheme (urlparse env src)) = false ->
  PyStr.str_in "tcp" (scheme (urlparse env src)) = true ->
  with_pymodes env = true ->
  queue_accepts_loop env = true ->
  (2 <= PyStr.occurrences "+" (scheme (urlparse env src)))%nat ->
  let r := run_main env opts in
  fst r = Raise ValueError
  /\ exit_status (fst r) = 1%Z
  /\ trace (snd r) = prologue env cot rd wr ++ [EvNewQueue net_queue]
  /\ printed (trace (snd r)) = []
  /\ ingestion_objects (trace (snd r)) = []
  /\ started (trace (snd r)) = []
  /\ puts (trace (snd r)) = [].
Proof.
  intros Hcot Hconn Hsrc Hhttp Htcp Hpy Hq Hplus r. subst r.
  rewrite (run_bad_tag env opts cot Hcot rd wr Hconn src Hsrc).
  - by repeat split.
  - unfold family. by rewrite Hhttp, Htcp.
  - done.
  - done.
  - by apply sub_format_more_plus.
Qed.

Lemma many_plus_scheme_raises_witness :
  let env := Sample.env true in
  let r := run_main env (Sample.opts Inputs.two_plus_url) in
  fst r = Raise ValueError
  /\ exit_status (fst r) = 1%Z
  /\ trace (snd r) = prologue env Inputs.cot_url 7 8 ++ [EvNewQueue net_queue]
  /\ printed (trace (snd r)) = []
  /\ ingestion_objects (trace (snd r)) = []
  /\ started (trace (snd r)) = []
  /\ puts (trace (snd r)) = [].
Proof.
  intros env.
  apply (many_plus_scheme_raises env (Sample.opts Inputs.two_plus_url)
           Inputs.cot_url Inputs.two_plus_url 7 8);
    reflexivity.
Defined.

(** X2.  The config file has no [adsbcot] section (a file that is not
    there reads as one): [cli] ends with [KeyError] on "adsbcot" right
    after reading the file, whatever the environment holds.  Neither URL
    diagnostic is printed and [main] is not entered. *)
Theorem missing_section_key_error (cenv : CliEnv) (given : option string)
    (ini : IniData) :
  argv cenv = ArgvParsed given ->
  read_ini cenv (default "config.ini" given) = Some ini ->
  ini !! "adsbcot" = None ->
  let r := run_cli cenv in
  fst r = Raise (KeyError "adsbcot")
  /\ exit_status (fst r) = 1%Z
  /\ trace (snd r) = setup_trace (default "config.ini" given) None
  /\ printed (trace (snd r)) = [].
Proof.
  intros Hargv Hini Hsec r. subst r.
  assert (parse_args cenv = ret (default "config.ini" given)) as Hpa.
  { unfold parse_args. rewrite Hargv. by destruct given. }
  unfold run_cli, cli. rewrite Hpa. cli_step. rewrite Hini, Hsec. done.
Qed.

Lemma missing_section_key_error_witness :
  let cenv :=
    sample_cli_env {[ "COT_URL" := Inputs.cot_url;
                      "DUMP1090_URL" := Inputs.stream_url ]} ∅ true in
  let r := run_cli cenv in
  fst r = Raise (KeyError "adsbcot")
  /\ exit_status (fst r) = 1%Z
  /\ trace (snd r) = setup_trace (default "config.ini" None) None
  /\ printed (trace (snd r)) = [].
Proof.
  intros cenv.
  apply (missing_section_key_error cenv None ∅); reflexivity.
Defined.

(** X10.  Without a resolved configuration [cli] never reaches the URL
    checks: it ends with the exit the command line asked for, or with the
    error of the config parser, or with [KeyError] on "adsbcot".  It has
    made set-up calls only and printed at most the name of the filter
    file. *)
Theorem unresolved_config_stops_cli (cenv : CliEnv) :
  resolved_config cenv = None ->
  let r := run_cli cenv in
  ((exists code, argv cenv = ArgvExit code /\ fst r = SysExit code)
   \/ fst r = Raise ParsingError
   \/ fst r = Raise (KeyError "adsbcot"))
  /\ Forall is_setup_event (trace (snd r))
  /\ (length (printed (trace (snd r))) <= 1)%nat.
Proof.
  intros Hc r. subst r. unfold resolved_config in Hc. unfold run_cli, cli.
  destruct (argv cenv) as [code | given] eqn:Hargv.
  { unfold parse_args. rewrite Hargv. cli_step.
    split; [left; by exists code |]. split; [constructor | simpl; lia]. }
  assert (parse_args cenv = ret (default "config.ini" given)) as Hpa.
  { unfold parse_args. rewrite Hargv. by destruct given. }
  rewrite Hpa. clear Hpa.
  generalize dependent (default "config.ini" given). intros file Hc.
  cli_step.
  destruct (read_ini cenv file) as [config|] eqn:Hini;
    [| split; [by right; left |]; split; [repeat constructor | simpl; lia]].
  destruct (config !! "adsbcot") as [section|] eqn:Hsec;
    [| split; [by right; right |]; split; [repeat constructor | simpl; lia]].
  destruct (truthy_str _) eqn:Hff; [| done].
  destruct (read_ini cenv (default "" _)) as [filters|] eqn:Hfil; [done |].
  split; [by right; left |]. split; [repeat constructor | simpl; lia].
Qed.

Lemma unresolved_config_stops_cli_witness :
  let cenv := mkCliEnv (Sample.env true) (ArgvParsed (Some "gateway.ini")) ∅
                       (fun _ => None) true in
  let r := run_cli cenv in
  ((exists code, argv cenv = ArgvExit code /\ fst r = SysExit code)
   \/ fst r = Raise ParsingError
   \/ fst r = Raise (KeyError "adsbcot"))
  /\ Forall is_setup_event (trace (snd r))
  /\ (length (printed (trace (snd r))) <= 1)%nat.
Proof.
  intros cenv.
  apply (unresolved_config_stops_cli cenv). reflexivity.
Defined.

(** X11.  The whole process on a stream source without the decoder: the
    configuration is resolved and the destination answers, the scheme is of
    the tcp family and pyModeS is missing.  [cli] ends with the exception
    [main] raised, so with exit status 1; the last lines printed are the
    decoder diagnostic, the one connection made is to the CoT destination,
    and no task was created. *)
Theorem cli_missing_decoder (cenv : CliEnv) (c : ChainMap Value)
    (cot src : string) (rd wr : Handle) :
  resolved_config cenv = Some c ->
  chain_get c "COT_URL" = Some (VStr cot) -> cot <> "" ->
  chain_get c "DUMP1090_URL" = Some (VStr src) -> src <> "" ->
  protocol_factory (main_env cenv) (urlparse (main_env cenv) cot) = Some (rd, wr) ->
  family (scheme (urlparse (main_env cenv) src)) = TcpFamily ->
  with_pymodes (main_env cenv) = false ->
  let r := run_cli cenv in
  fst r = Raise BareException
  /\ exit_status (fst r) = 1%Z
  /\ (exists before, printed (trace (snd r)) = before ++ pymodes_diagnostic)
  /\ connections (trace (snd r)) = [urlparse (main_env cenv) cot]
  /\ started (trace (snd r)) = []
  /\ puts (trace (snd r)) = [].
Proof.
  intros Hc Hcot Hcne Hsrc Hsne Hconn Hfam Hpy r. subst r.
  destruct (run_cli_enters_main cenv c Hc) as (setup & Hsetup & ->).
  { rewrite Hcot. by destruct cot. }
  { rewrite Hsrc. by destruct src. }
  rewrite (run_no_decoder (main_env cenv) c cot Hcot rd wr Hconn src Hsrc Hfam Hpy).
  cbn [fst snd trace outbound next_task].
  destruct (setup_only setup Hsetup) as (_ & Hcn & _ & Hst & Hp).
  split; [done |]. split; [done |].
  destruct (version_ge_37 cenv); read_trace; rewrite Hcn, Hst, Hp;
    (split; [by exists (printed setup) | done]).
Qed.

Lemma cli_missing_decoder_witness :
  let cenv :=
    mkCliEnv (Sample.env false) (ArgvParsed None) ∅
      (fun _ => Some ({[ "adsbcot" := {[ "COT_URL" := Inputs.cot_url;
                                        "DUMP1090_URL" := Inputs.stream_url ]} ]}
                      : IniData)) true in
  let r := run_cli cenv in
  fst r = Raise BareException
  /\ exit_status (fst r) = 1%Z
  /\ (exists before, printed (trace (snd r)) = before ++ pymodes_diagnostic)
  /\ connections (trace (snd r)) = [urlparse (main_env cenv) Inputs.cot_url]
  /\ started (trace (snd r)) = []
  /\ puts (trace (snd r)) = [].
Proof.
  intros cenv.
  apply (cli_missing_decoder cenv
           (as_values [ {[ "CONFIG_FILE" := "config.ini" ]}; ∅;
                        {[ "COT_URL" := Inputs.cot_url;
                           "DUMP1090_URL" := Inputs.stream_url ]} ])
           Inputs.cot_url Inputs.stream_url 7 8);
    try (vm_compute; reflexivity); discriminate.
Defined.

(** ** [main] called without a URL *)

(** X14.  The options hold no destination URL: [urlparse(None)] answers
    without an error, and [main] hands its bytes record to the transport
    factory.  The connection is asked for all the same, right after the two
    queues, and it is the one connection of the run; when the factory
    raises on that record the run ends there. *)
Theorem absent_destination_still_connects (env : Env) (opts : ChainMap Value) :
  chain_get opts "COT_URL" = None ->
  let r := run_main env opts in
  (exists rest,
     trace (snd r)
     = [EvNewQueue tx_queue; EvNewQueue rx_queue; EvConnect bytes_record] ++ rest)
  /\ connections (trace (snd r)) = [bytes_record]
  /\ (protocol_factory_bytes env = None ->
      fst r = Raise TransportError
      /\ trace (snd r)
         = [EvNewQueue tx_queue; EvNewQueue rx_queue; EvConnect bytes_record]).
Proof.
  intros Hcot r. subst r.
  assert (destination env opts = Some (bytes_record, protocol_factory_bytes env))
    as Hdest by (unfold destination; by rewrite Hcot).
  destruct (run_main_paths env opts)
    as [Hd -> | u Hd -> | u rd wr e Hd _ -> | u src rd wr st Hd _ _ ->
        | u src rd wr Hd _ _ _ -> | u src rd wr Hd _ _ _ _ ->
        | u src rd wr Hd _ _ _ _ _ -> | u src rd wr Hd _ _ ->];
    rewrite Hdest in Hd; [done | injection Hd as <- Hpf ..];
    cbn [fst snd trace]; unfold prologue_at;
    try (destruct st as [|dt]); read_trace;
    (split; [eexists; reflexivity |]); (split; [done |]);
    intros Hnone; rewrite Hnone in Hpf; done.
Qed.

Lemma absent_destination_still_connects_witness :
  let r := run_main (Sample.env true)
             [ {[ "DUMP1090_URL" := VStr Inputs.stream_url ]} ] in
  (exists rest,
     trace (snd r)
     = [EvNewQueue tx_queue; EvNewQueue rx_queue; EvConnect bytes_record] ++ rest)
  /\ connections (trace (snd r)) = [bytes_record]
  /\ (protocol_factory_bytes (Sample.env true) = None ->
      fst r = Raise TransportError
      /\ trace (snd r)
         = [EvNewQueue tx_queue; EvNewQueue rx_queue; EvConnect bytes_record]).
Proof.
  apply (absent_destination_still_connects (Sample.env true)
           [ {[ "DUMP1090_URL" := VStr Inputs.stream_url ]} ]).
  reflexivity.
Defined.

(** X15.  The options hold no source URL and the destination answers:
    the first test on the scheme of the bytes record that [urlparse(None)]
    gave raises [TypeError].  The destination is connected and the two
    transport workers exist by then; nothing is printed, no ingestion
    object is constructed, no task is created and no hello event is put. *)
Theorem absent_source_type_error (env : Env) (opts : ChainMap Value)
    (cot : string) (rd wr : Handle) :
  chain_get opts "COT_URL" = Some (VStr cot) ->
  protocol_factory env (urlparse env cot) = Some (rd, wr) ->
  chain_get opts "DUMP1090_URL" = None ->
  let r := run_main env opts in
  fst r = Raise TypeError
  /\ exit_status (fst r) = 1%Z
  /\ trace (snd r) = prologue env cot rd wr
  /\ printed (trace (snd r)) = []
  /\ ingestion_objects (trace (snd r)) = []
  /\ started (trace (snd r)) = []
  /\ puts (trace (snd r)) = [].
Proof.
  intros Hcot Hconn Hsrc r. subst r.
  destruct (run_no_source_at env opts (urlparse env cot) rd wr
              (destination_str env opts cot Hcot rd wr Hconn))
    as (e & -> & He).
  { intros src. by rewrite Hsrc. }
  rewrite (He Hsrc). by repeat split.
Qed.

Lemma absent_source_type_error_witness :
  let env := Sample.env true in
  let r := run_main env [ {[ "COT_URL" := VStr Inputs.cot_url ]} ] in
  fst r = Raise TypeError
  /\ exit_status (fst r) = 1%Z
  /\ trace (snd r) = prologue env Inputs.cot_url 7 8
  /\ printed (trace (snd r)) = []
  /\ ingestion_objects (trace (snd r)) = []
  /\ started (trace (snd r)) = []
  /\ puts (trace (snd r)) = [].
Proof.
  intros env.
  apply (absent_source_type_error env [ {[ "COT_URL" := VStr Inputs.cot_url ]} ]
           Inputs.cot_url 7 8);
    reflexivity.
Defined.
